(** * Task management core: TaskRepository and TaskController

    A shallow embedding of [public/src/repositories/TaskRepository.js] and
    [public/src/controllers/TaskController.js].

    - JavaScript values that reach the two classes are modelled by [JSValue];
      argument objects ([taskData], [filters], [updates]) are finite maps
      from property names to values.
    - A computation either completes normally or throws an [Error] whose
      [message] is a string; the state it worked on survives a throw,
      because task objects are mutated in place.
    - The [EnhancedTask] entity, the [User] entity and [UserRepository] are
      not part of the two files: the entity operations are an interface
      ([EnhancedTaskOps]) the development is parametric in. *)

From Stdlib Require Import ZArith String Ascii List Bool Lia.
From Stdlib Require Import Sorting.Sorted Sorting.Permutation.
From stdpp Require Import base gmap strings list pretty.

Import ListNotations.
Local Open Scope Z_scope.
Local Open Scope string_scope.

(** ** JavaScript values and string primitives *)

Module JS.

(** The values the code inspects: primitives and arrays of strings (tag
    lists).  Numbers are integers; a string is a sequence of code units
    below 256. *)
Inductive JSValue : Type :=
| JUndefined
| JNull
| JBool (b : bool)
| JNum (n : Z)
| JStr (s : string)
| JArr (items : list string).

(** A plain object: property name to value.  Reading a missing property
    yields [undefined]. *)
Abbreviation Obj := (gmap string JSValue).

Definition prop (o : Obj) (k : string) : JSValue :=
  match o !! k with
  | Some v => v
  | None => JUndefined
  end.

(** [ToBoolean]. *)
Definition truthy (v : JSValue) : bool :=
  match v with
  | JUndefined | JNull => false
  | JBool b => b
  | JNum n => negb (Z.eqb n 0)
  | JStr s => negb (String.eqb s "")
  | JArr _ => true
  end.

(** [v !== undefined]. *)
Definition defined (v : JSValue) : bool :=
  match v with
  | JUndefined => false
  | _ => true
  end.

(** [a === b] where at least one side is a primitive: two arrays are never
    the same reference here, since an argument array is never stored in a
    task. *)
Definition strict_eq (a b : JSValue) : bool :=
  match a, b with
  | JUndefined, JUndefined => true
  | JNull, JNull => true
  | JBool x, JBool y => Bool.eqb x y
  | JNum x, JNum y => Z.eqb x y
  | JStr x, JStr y => String.eqb x y
  | _, _ => false
  end.

(** [a || b]. *)
Definition or_else (a b : JSValue) : JSValue :=
  if truthy a then a else b.

(** White space and line terminators stripped by [String.prototype.trim],
    among the code units below 256. *)
Definition is_whitespace (c : ascii) : bool :=
  let n := nat_of_ascii c in
  (Nat.leb 9 n && Nat.leb n 13) || Nat.eqb n 32 || Nat.eqb n 160.

Fixpoint trimStart (s : string) : string :=
  match s with
  | EmptyString => EmptyString
  | String c s' => if is_whitespace c then trimStart s' else s
  end.

Fixpoint rev_append (s acc : string) : string :=
  match s with
  | EmptyString => acc
  | String c s' => rev_append s' (String c acc)
  end.

Definition reverse (s : string) : string := rev_append s EmptyString.

Definition trim (s : string) : string :=
  reverse (trimStart (reverse (trimStart s))).

(** [toLowerCase] on code units below 256: A-Z and the Latin-1 capitals. *)
Definition lower_char (c : ascii) : ascii :=
  let n := nat_of_ascii c in
  if (Nat.leb 65 n && Nat.leb n 90)
     || (Nat.leb 192 n && Nat.leb n 222 && negb (Nat.eqb n 215))
  then ascii_of_nat (n + 32)
  else c.

Fixpoint toLowerCase (s : string) : string :=
  match s with
  | EmptyString => EmptyString
  | String c s' => String (lower_char c) (toLowerCase s')
  end.

(** [s.includes(sub)]: [sub] occurs in [s]. *)
Fixpoint includes (s sub : string) : bool :=
  String.prefix sub s ||
  match s with
  | EmptyString => false
  | String _ s' => includes s' sub
  end.

(** [a < b] on strings: code-unit lexicographic order. *)
Definition str_lt (a b : string) : bool := String.ltb a b.

(** The double quote, for template literals that quote a title. *)
Definition dquote : string := String "034"%char EmptyString.

End JS.
Export JS.

(** ** Completions and the state-and-exception monad *)

(** The outcome of evaluating a piece of code: a value, or a thrown
    [Error] represented by its [message]. *)
Inductive Completion (A : Type) : Type :=
| Normal (a : A)
| Throw (message : string).
Arguments Normal {A} a.
Arguments Throw {A} message.

(** A computation over a mutable state [S].  The state is returned in both
    cases: what was mutated before a throw stays mutated. *)
Definition M (S A : Type) : Type := S -> Completion A * S.

Definition ret {S A} (a : A) : M S A := fun s => (Normal a, s).

Definition throw {S A} (message : string) : M S A := fun s => (Throw message, s).

Definition bind {S A B} (m : M S A) (k : A -> M S B) : M S B :=
  fun s =>
    match m s with
    | (Normal a, s') => k a s'
    | (Throw e, s') => (Throw e, s')
    end.

(** [try { m } catch (error) { h error.message }]. *)
Definition try_catch {S A} (m : M S A) (h : string -> M S A) : M S A :=
  fun s =>
    match m s with
    | (Normal a, s') => (Normal a, s')
    | (Throw e, s') => h e s'
    end.

Definition gets {S A} (f : S -> A) : M S A := fun s => (Normal (f s), s).

Definition modify {S} (f : S -> S) : M S unit := fun s => (Normal tt, f s).

(** A pure step that may throw. *)
Definition lift {S A} (c : Completion A) : M S A := fun s => (c, s).

Declare Scope js_scope.
Delimit Scope js_scope with js.
Notation "x <- m ;; k" := (bind m (fun x => k))
  (at level 100, m at next level, right associativity) : js_scope.
Notation "m ;; k" := (bind m (fun _ => k))
  (at level 100, right associativity) : js_scope.
Local Open Scope js_scope.

(** Type errors the engine raises (messages as V8 words them). *)
Definition TypeError_read (base key : string) : string :=
  "Cannot read properties of " +:+ base +:+ " (reading '" +:+ key +:+ "')".

Definition TypeError_not_function (expr : string) : string :=
  expr +:+ " is not a function".

(** [v.trim()], where [expr] is the source text of [v]. *)
Definition call_trim (expr : string) (v : JSValue) : Completion string :=
  match v with
  | JStr s => Normal (trim s)
  | JUndefined => Throw (TypeError_read "undefined" "trim")
  | JNull => Throw (TypeError_read "null" "trim")
  | _ => Throw (TypeError_not_function (expr +:+ ".trim"))
  end.

(** [v.toLowerCase()]. *)
Definition call_toLowerCase (expr : string) (v : JSValue) : Completion string :=
  match v with
  | JStr s => Normal (toLowerCase s)
  | JUndefined => Throw (TypeError_read "undefined" "toLowerCase")
  | JNull => Throw (TypeError_read "null" "toLowerCase")
  | _ => Throw (TypeError_not_function (expr +:+ ".toLowerCase"))
  end.

(** ** Entities *)

(** A task as the repository and the controller read it (spec, data
    model).  Dates are milliseconds since the epoch.  [isOverdue] and
    [daysUntilDue] are derived by the entity from [dueDate] and the clock;
    they are recorded at the value they have while one call runs. *)
Module Task.
Record t : Type := mk {
  id : string;
  title : string;
  description : string;
  ownerId : string;
  assigneeId : option string;
  category : string;
  priority : string;
  status : string;
  dueDate : option Z;
  isOverdue : bool;
  daysUntilDue : option Z;
  estimatedHours : Z;
  timeSpent : Z;
  tags : list string;
  notes : list string;
  createdAt : Z
}.
End Task.

Module User.
Record t : Type := mk {
  id : string;
  username : string;
  email : string;
  fullName : string;
  isActive : bool
}.
End User.

(** [task.assigneeId] as a value: [null] when unassigned. *)
Definition assignee_value (t : Task.t) : JSValue :=
  match Task.assigneeId t with
  | Some u => JStr u
  | None => JNull
  end.

(** A mutation method of [EnhancedTask]: called on a task with one
    argument, it leaves the task in some state and either returns or
    throws a domain error. *)
Definition Mutation : Type := Task.t -> JSValue -> Task.t * option string.

(** The entity layer used by the repository: the constructor
    [new EnhancedTask(title, description, ownerId, options)], which draws a
    fresh id and timestamps from the ambient clock (the [nat]), and the
    twelve mutation methods [update] dispatches to. *)
Class EnhancedTaskOps : Type := {
  construct : nat -> JSValue -> JSValue -> JSValue -> Obj -> Completion Task.t;
  updateTitle : Mutation;
  updateDescription : Mutation;
  updateCategory : Mutation;
  updatePriority : Mutation;
  updateStatus : Mutation;
  setDueDate : Mutation;
  assignTo : Mutation;
  setEstimatedHours : Mutation;
  addTimeSpent : Mutation;
  addTag : Mutation;
  removeTag : Mutation;
  addNote : Mutation
}.

(** ** The in-memory index: a JavaScript [Map] keyed by task id

    Insertion order is kept; [set] on a present key replaces the value in
    place. *)
Module TaskMap.

Abbreviation t := (list (string * Task.t)).

Fixpoint get (k : string) (m : t) : option Task.t :=
  match m with
  | [] => None
  | (k', v) :: m' => if String.eqb k k' then Some v else get k m'
  end.

Definition has (k : string) (m : t) : bool :=
  match get k m with
  | Some _ => true
  | None => false
  end.

Fixpoint set (k : string) (v : Task.t) (m : t) : t :=
  match m with
  | [] => [(k, v)]
  | (k', v') :: m' =>
      if String.eqb k k' then (k, v) :: m' else (k', v') :: set k v m'
  end.

Fixpoint remove (k : string) (m : t) : t :=
  match m with
  | [] => []
  | (k', v') :: m' =>
      if String.eqb k k' then remove k m' else (k', v') :: remove k m'
  end.

Definition values (m : t) : list Task.t := List.map snd m.

End TaskMap.

(** The storage port: the list last handed to [save] under key ['tasks'],
    and how many times [save] was called. *)
Record Storage : Type := {
  saved : list Task.t;
  saveCalls : nat
}.

(** State of a [TaskRepository]: the index, its storage, and the ambient
    clock the entity constructor reads. *)
Record Repo : Type := {
  tasks : TaskMap.t;
  storage : Storage;
  clock : nat
}.

Definition with_tasks (m : TaskMap.t) (r : Repo) : Repo :=
  {| tasks := m; storage := storage r; clock := clock r |}.

(** Result of [getStats]. *)
Module Stats.
Record t : Type := mk {
  total : nat;
  byStatus : list (string * nat);
  byPriority : list (string * nat);
  byCategory : list (string * nat);
  overdue : nat;
  dueSoon : nat;
  completed : nat
}.
End Stats.

(** ** TaskRepository *)

Module TaskRepository.
Section Repository.
Context `{EnhancedTaskOps}.

(** [_saveTasksToStorage]: serialize every task of the index and hand the
    list to the storage port. *)
Definition _saveTasksToStorage : M Repo unit :=
  modify (fun r =>
    {| tasks := tasks r;
       storage := {| saved := TaskMap.values (tasks r);
                     saveCalls := S (saveCalls (storage r)) |};
       clock := clock r |}).

(** [new EnhancedTask(...)]: reads and advances the clock. *)
Definition new_EnhancedTask (title description ownerId : JSValue) (options : Obj)
  : M Repo Task.t :=
  fun r =>
    (construct (clock r) title description ownerId options,
     {| tasks := tasks r; storage := storage r; clock := S (clock r) |}).

Definition create (taskData : Obj) : M Repo Task.t :=
  try_catch
    (task <- new_EnhancedTask (prop taskData "title")
                              (or_else (prop taskData "description") (JStr ""))
                              (prop taskData "ownerId")
                              taskData ;;
     modify (fun r => with_tasks (TaskMap.set (Task.id task) task (tasks r)) r) ;;
     _saveTasksToStorage ;;
     ret task)
    (fun e => throw e).

(** [this.tasks.get(id) || null]: only a string can be a key of the index. *)
Definition findById (id : JSValue) (r : Repo) : option Task.t :=
  match id with
  | JStr k => TaskMap.get k (tasks r)
  | _ => None
  end.

Definition findAll (r : Repo) : list Task.t := TaskMap.values (tasks r).

Definition findByOwner (ownerId : JSValue) (r : Repo) : list Task.t :=
  List.filter (fun task => strict_eq (JStr (Task.ownerId task)) ownerId) (findAll r).

Definition findByAssignee (assigneeId : JSValue) (r : Repo) : list Task.t :=
  List.filter (fun task => strict_eq (assignee_value task) assigneeId) (findAll r).

Definition findByCategory (category : JSValue) (r : Repo) : list Task.t :=
  List.filter (fun task => strict_eq (JStr (Task.category task)) category) (findAll r).

Definition findByStatus (status : JSValue) (r : Repo) : list Task.t :=
  List.filter (fun task => strict_eq (JStr (Task.status task)) status) (findAll r).

Definition findByPriority (priority : JSValue) (r : Repo) : list Task.t :=
  List.filter (fun task => strict_eq (JStr (Task.priority task)) priority) (findAll r).

Definition findOverdue (r : Repo) : list Task.t :=
  List.filter (fun task => Task.isOverdue task) (findAll r).

(** [daysUntilDue !== null && daysUntilDue <= days && daysUntilDue >= 0]. *)
Definition due_within (days : Z) (task : Task.t) : bool :=
  match Task.daysUntilDue task with
  | Some d => Z.leb d days && Z.leb 0 d
  | None => false
  end.

(** [findDueSoon(days = 3)]: [None] is the omitted argument. *)
Definition findDueSoon (days : option Z) (r : Repo) : list Task.t :=
  let days := match days with Some d => d | None => 3 end in
  List.filter (due_within days) (findAll r).

Definition has_tag (tag : string) (task : Task.t) : bool :=
  existsb (String.eqb tag) (Task.tags task).

Definition findByTag (tag : string) (r : Repo) : list Task.t :=
  List.filter (has_tag tag) (findAll r).

(** The task object [update] holds is the one stored in the index under
    [id]: a mutation method called on it changes the index entry in place,
    also when the method throws. *)
Definition mutate (id : JSValue) (f : Task.t -> Task.t * option string) : M Repo unit :=
  fun r =>
    match id, findById id r with
    | JStr k, Some task =>
        let (task', failure) := f task in
        let r' := with_tasks (TaskMap.set k task' (tasks r)) r in
        match failure with
        | None => (Normal tt, r')
        | Some e => (Throw e, r')
        end
    | _, _ => (Normal tt, r)
    end.

(** [if (updates.key !== undefined) task.method(updates.key);] *)
Definition apply_update (id : JSValue) (updates : Obj) (key : string) (method : Mutation)
  : M Repo unit :=
  let v := prop updates key in
  if defined v then mutate id (fun task => method task v) else ret tt.

Definition update (id : JSValue) (updates : Obj) : M Repo (option Task.t) :=
  task <- gets (findById id) ;;
  match task with
  | None => ret None
  | Some _ =>
      try_catch
        (apply_update id updates "title" updateTitle ;;
         apply_update id updates "description" updateDescription ;;
         apply_update id updates "category" updateCategory ;;
         apply_update id updates "priority" updatePriority ;;
         apply_update id updates "status" updateStatus ;;
         apply_update id updates "dueDate" setDueDate ;;
         apply_update id updates "assigneeId" assignTo ;;
         apply_update id updates "estimatedHours" setEstimatedHours ;;
         apply_update id updates "addTimeSpent" addTimeSpent ;;
         apply_update id updates "addTag" addTag ;;
         apply_update id updates "removeTag" removeTag ;;
         apply_update id updates "addNote" addNote ;;
         _saveTasksToStorage ;;
         gets (findById id))
        (fun e => throw e)
  end.

(** [delete(id)]. *)
Definition delete (id : JSValue) : M Repo bool :=
  present <- gets (fun r => match id with
                            | JStr k => TaskMap.has k (tasks r)
                            | _ => false
                            end) ;;
  if present then
    modify (fun r => match id with
                     | JStr k => with_tasks (TaskMap.remove k (tasks r)) r
                     | _ => r
                     end) ;;
    _saveTasksToStorage ;;
    ret true
  else ret false.

Definition matches (searchTerm : string) (task : Task.t) : bool :=
  includes (toLowerCase (Task.title task)) searchTerm
  || includes (toLowerCase (Task.description task)) searchTerm
  || existsb (fun tag => includes (toLowerCase tag) searchTerm) (Task.tags task).

Definition search (query : JSValue) (r : Repo) : Completion (list Task.t) :=
  match call_toLowerCase "query" query with
  | Normal searchTerm => Normal (List.filter (matches searchTerm) (findAll r))
  | Throw e => Throw e
  end.

(** One stage of [filter]: [if (filters.key) results = results.filter(p)]. *)
Definition stage (v : JSValue) (p : Task.t -> bool) (results : list Task.t) : list Task.t :=
  if truthy v then List.filter p results else results.

(** [daysUntilDue !== null && days <= 3 && days >= 0]. *)
Definition due_soon (task : Task.t) : bool := due_within 3 task.

(** The last stage, [filters.tags && filters.tags.length > 0]: an array
    keeps the tasks that carry one of its tags; a non-empty string has a
    length but no [some], so the callback throws on the first task it is
    given; any other value has no [length]. *)
Definition tags_stage (v : JSValue) (results : list Task.t) : Completion (list Task.t) :=
  match v with
  | JArr wanted =>
      if Nat.ltb 0 (length wanted)
      then Normal (List.filter (fun task => existsb (fun tag => has_tag tag task) wanted) results)
      else Normal results
  | JStr s =>
      if truthy v then
        match results with
        | [] => Normal []
        | _ :: _ => Throw (TypeError_not_function "filters.tags.some")
        end
      else Normal results
  | _ => Normal results
  end.

Definition filter (filters : Obj) (r : Repo) : Completion (list Task.t) :=
  let results := findAll r in
  let results := stage (prop filters "ownerId")
                   (fun task => strict_eq (JStr (Task.ownerId task)) (prop filters "ownerId")) results in
  let results := stage (prop filters "assigneeId")
                   (fun task => strict_eq (assignee_value task) (prop filters "assigneeId")) results in
  let results := stage (prop filters "category")
                   (fun task => strict_eq (JStr (Task.category task)) (prop filters "category")) results in
  let results := stage (prop filters "status")
                   (fun task => strict_eq (JStr (Task.status task)) (prop filters "status")) results in
  let results := stage (prop filters "priority")
                   (fun task => strict_eq (JStr (Task.priority task)) (prop filters "priority")) results in
  let results := stage (prop filters "overdue") (fun task => Task.isOverdue task) results in
  let results := stage (prop filters "dueSoon") due_soon results in
  tags_stage (prop filters "tags") results.


(** [Array.prototype.sort(comparefn)].  The comparators of [sort] never
    return 0, so they are not consistent in the sense of ECMAScript and
    the resulting order is the engine's choice.  The model is an insertion
    sort: each element in turn is placed before the first element of the
    already sorted prefix that it compares negative to. *)
Fixpoint insert {A : Type} (cmp : A -> A -> Z) (x : A) (sorted : list A) : list A :=
  match sorted with
  | [] => [x]
  | y :: rest => if Z.ltb (cmp x y) 0 then x :: sorted else y :: insert cmp x rest
  end.

Definition array_sort {A : Type} (cmp : A -> A -> Z) (l : list A) : list A :=
  fold_left (fun sorted x => insert cmp x sorted) l [].

(** [p[priority]] for [p = { low: 1, medium: 2, high: 3, urgent: 4 }]; any
    other priority reads as [undefined] (names inherited from
    [Object.prototype] are not priorities of a task). *)
Definition priority_ordinal (priority : string) : option Z :=
  if String.eqb priority "low" then Some 1
  else if String.eqb priority "medium" then Some 2
  else if String.eqb priority "high" then Some 3
  else if String.eqb priority "urgent" then Some 4
  else None.

(** [new Date('9999-12-31')]. *)
Definition far_future : Z := 253402214400000.

(** [valueA] / [valueB] of the comparator, by the [switch (sortBy)]. *)
Definition sort_value (sortBy : JSValue) (task : Task.t) : JSValue :=
  if strict_eq sortBy (JStr "title") then JStr (toLowerCase (Task.title task))
  else if strict_eq sortBy (JStr "priority") then
    match priority_ordinal (Task.priority task) with
    | Some n => JNum n
    | None => JUndefined
    end
  else if strict_eq sortBy (JStr "dueDate") then
    JNum (match Task.dueDate task with Some d => d | None => far_future end)
  else JNum (Task.createdAt task).

(** [a < b] for two values of one [sort_value] case: strings by code
    units, numbers and dates numerically, [undefined] never. *)
Definition less_than (a b : JSValue) : bool :=
  match a, b with
  | JStr x, JStr y => str_lt x y
  | JNum x, JNum y => Z.ltb x y
  | _, _ => false
  end.

Definition comparator (sortBy order : JSValue) (a b : Task.t) : Z :=
  let valueA := sort_value sortBy a in
  let valueB := sort_value sortBy b in
  if strict_eq order (JStr "asc")
  then (if less_than valueB valueA then 1 else -1)
  else (if less_than valueA valueB then 1 else -1).

(** [sort(tasks, sortBy = 'createdAt', order = 'desc')]: the array is
    sorted in place and returned. *)
Definition sort (tasks : list Task.t) (sortBy order : JSValue) : list Task.t :=
  let sortBy := if defined sortBy then sortBy else JStr "createdAt" in
  let order := if defined order then order else JStr "desc" in
  array_sort (comparator sortBy order) tasks.


Definition count (p : Task.t -> bool) (tasks : list Task.t) : nat :=
  length (List.filter p tasks).

Definition tally (field : Task.t -> string) (keys : list string) (tasks : list Task.t)
  : list (string * nat) :=
  List.map (fun k => (k, count (fun t => String.eqb (field t) k) tasks)) keys.

(** [t.daysUntilDue !== null && t.daysUntilDue <= 3]. *)
Definition counted_due_soon (t : Task.t) : bool :=
  match Task.daysUntilDue t with
  | Some d => Z.leb d 3
  | None => false
  end.

(** [getStats(userId = null)]. *)
Definition getStats (userId : JSValue) (r : Repo) : Stats.t :=
  let tasks := if truthy userId
               then findByOwner userId r
               else findAll r in
  {| Stats.total := length tasks;
     Stats.byStatus :=
       tally Task.status ["pending"; "in-progress"; "blocked"; "completed"; "cancelled"] tasks;
     Stats.byPriority := tally Task.priority ["low"; "medium"; "high"; "urgent"] tasks;
     Stats.byCategory :=
       tally Task.category ["work"; "personal"; "study"; "health"; "finance"; "other"] tasks;
     Stats.overdue := count (fun t => Task.isOverdue t) tasks;
     Stats.dueSoon := count counted_due_soon tasks;
     Stats.completed := count (fun t => String.eqb (Task.status t) "completed") tasks |}.

End Repository.
End TaskRepository.

(** ** UserRepository *)

Module UserRepository.

(** Modelled from the spec: [UserRepository.findById], whose file
    (repositories/UserRepository.js) is not among the sources.  Spec 4.2
    and the repository's tests: lookup by id in the index of users, [null]
    when absent. *)
Definition findById (id : JSValue) (users : list User.t) : option User.t :=
  match id with
  | JStr k => List.find (fun u => String.eqb (User.id u) k) users
  | _ => None
  end.

End UserRepository.

(** ** TaskController *)

(** The [data] of a response. *)
Inductive Data : Type :=
| DTask (task : Task.t)
| DTasks (tasks : list Task.t)
| DStats (stats : Stats.t)
| DNull.

(** The response envelope; [None] is an absent key. *)
Module Response.
Record t : Type := mk {
  success : bool;
  data : option Data;
  message : option string;
  error : option string;
  count : option nat;
  query : option JSValue
}.
End Response.

(** [{ success: false, error: message }]. *)
Definition failure (message : string) : Response.t :=
  {| Response.success := false; Response.data := None; Response.message := None;
     Response.error := Some message; Response.count := None; Response.query := None |}.

(** Calls the controller makes on its two repositories, in order. *)
Inductive Call : Type :=
| TaskRepository_create (taskData : Obj)
| TaskRepository_findById (id : JSValue)
| TaskRepository_filter (filters : Obj)
| TaskRepository_sort (sortBy order : JSValue)
| TaskRepository_update (id : JSValue) (updates : Obj)
| TaskRepository_delete (id : JSValue)
| TaskRepository_search (query : JSValue)
| TaskRepository_getStats (userId : JSValue)
| TaskRepository_findOverdue
| TaskRepository_findDueSoon (days : Z)
| UserRepository_findById (id : JSValue).

(** State of a [TaskController] and of the objects it holds; [calls] is a
    record of the repository methods it has invoked. *)
Record Controller : Type := {
  taskRepository : Repo;
  userRepository : list User.t;
  currentUser : option User.t;
  calls : list Call
}.

Module TaskController.
Section Controller.
Context `{EnhancedTaskOps}.

Definition must_login : string := "User harus login terlebih dahulu".

Definition invoked (c : Call) : M Controller unit :=
  modify (fun s =>
    {| taskRepository := taskRepository s; userRepository := userRepository s;
       currentUser := currentUser s; calls := calls s ++ [c] |}).

(** Run a repository method on [this.taskRepository]. *)
Definition on_tasks {A} (c : Call) (m : M Repo A) : M Controller A :=
  invoked c ;;
  fun s =>
    let (result, r') := m (taskRepository s) in
    (result,
     {| taskRepository := r'; userRepository := userRepository s;
        currentUser := currentUser s; calls := calls s |}).

(** [this.userRepository.findById(id)]. *)
Definition find_user (id : JSValue) : M Controller (option User.t) :=
  invoked (UserRepository_findById id) ;;
  gets (fun s => UserRepository.findById id (userRepository s)).

(** [this.currentUser.id], which throws when [currentUser] is [null]. *)
Definition currentUser_id : M Controller string :=
  user <- gets currentUser ;;
  match user with
  | Some u => ret (User.id u)
  | None => throw (TypeError_read "null" "id")
  end.

(** [!v || v.trim() === ''], where [expr] is the source text of [v]. *)
Definition blank (expr : string) (v : JSValue) : M Controller bool :=
  if truthy v
  then trimmed <- lift (call_trim expr v) ;; ret (String.eqb trimmed "")
  else ret true.

(** [!v] for the result of a lookup. *)
Definition is_null {A} (found : option A) : bool :=
  match found with
  | Some _ => false
  | None => true
  end.

(** [task.ownerId === id || task.assigneeId === id]. *)
Definition involves (id : string) (task : Task.t) : bool :=
  strict_eq (JStr (Task.ownerId task)) (JStr id)
  || strict_eq (assignee_value task) (JStr id).

Definition setCurrentUser (userId : JSValue) : M Controller unit :=
  user <- find_user userId ;;
  modify (fun s =>
    {| taskRepository := taskRepository s; userRepository := userRepository s;
       currentUser := user; calls := calls s |}) ;;
  match user with
  | Some _ => ret tt
  | None => throw "User tidak ditemukan"
  end.

Definition createTask (taskData : Obj) : M Controller Response.t :=
  try_catch
    (user <- gets currentUser ;;
     match user with
     | None => ret (failure must_login)
     | Some user =>
         untitled <- blank "taskData.title" (prop taskData "title") ;;
         if untitled then ret (failure "Judul task wajib diisi")
         else
           let taskToCreate :=
             <["assigneeId" := or_else (prop taskData "assigneeId") (JStr (User.id user))]>
               (<["ownerId" := JStr (User.id user)]> taskData) in
           unknown <-
             (if negb (strict_eq (prop taskToCreate "assigneeId") (JStr (User.id user)))
              then assignee <- find_user (prop taskToCreate "assigneeId") ;;
                   ret (is_null assignee)
              else ret false) ;;
           if unknown then ret (failure "User yang di-assign tidak ditemukan")
           else
             task <- on_tasks (TaskRepository_create taskToCreate)
                              (TaskRepository.create taskToCreate) ;;
             ret {| Response.success := true;
                    Response.data := Some (DTask task);
                    Response.message :=
                      Some ("Task " +:+ dquote +:+ Task.title task +:+ dquote
                            +:+ " berhasil dibuat");
                    Response.error := None; Response.count := None;
                    Response.query := None |}
     end)
    (fun e => ret (failure e)).

(** [getTasks(filters = {})]. *)
Definition getTasks (filters : Obj) : M Controller Response.t :=
  try_catch
    (user <- gets currentUser ;;
     match user with
     | None => ret (failure must_login)
     | Some user =>
         let userFilters := <["ownerId" := JStr (User.id user)]> filters in
         tasks <- on_tasks (TaskRepository_filter userFilters)
                           (fun r => (TaskRepository.filter userFilters r, r)) ;;
         let sortBy := or_else (prop filters "sortBy") (JStr "createdAt") in
         let sortOrder := or_else (prop filters "sortOrder") (JStr "desc") in
         tasks <- on_tasks (TaskRepository_sort sortBy sortOrder)
                           (ret (TaskRepository.sort tasks sortBy sortOrder)) ;;
         ret {| Response.success := true;
                Response.data := Some (DTasks tasks);
                Response.message := None; Response.error := None;
                Response.count := Some (length tasks);
                Response.query := None |}
     end)
    (fun e => ret (failure e)).

Definition getTask (taskId : JSValue) : M Controller Response.t :=
  try_catch
    (user <- gets currentUser ;;
     match user with
     | None => ret (failure must_login)
     | Some user =>
         task <- on_tasks (TaskRepository_findById taskId)
                          (gets (TaskRepository.findById taskId)) ;;
         match task with
         | None => ret (failure "Task tidak ditemukan")
         | Some task =>
             if negb (strict_eq (JStr (Task.ownerId task)) (JStr (User.id user)))
                && negb (strict_eq (assignee_value task) (JStr (User.id user)))
             then ret (failure "Anda tidak memiliki akses ke task ini")
             else ret {| Response.success := true;
                         Response.data := Some (DTask task);
                         Response.message := None; Response.error := None;
                         Response.count := None; Response.query := None |}
         end
     end)
    (fun e => ret (failure e)).

(** [data: updatedTask], where [update] may have returned [null]. *)
Definition task_or_null (task : option Task.t) : Data :=
  match task with
  | Some t => DTask t
  | None => DNull
  end.

Definition updateTask (taskId : JSValue) (updates : Obj) : M Controller Response.t :=
  try_catch
    (user <- gets currentUser ;;
     match user with
     | None => ret (failure must_login)
     | Some user =>
         task <- on_tasks (TaskRepository_findById taskId)
                          (gets (TaskRepository.findById taskId)) ;;
         match task with
         | None => ret (failure "Task tidak ditemukan")
         | Some task =>
             if negb (strict_eq (JStr (Task.ownerId task)) (JStr (User.id user)))
             then ret (failure "Hanya owner yang bisa mengubah task")
             else
               unknown <-
                 (if truthy (prop updates "assigneeId")
                  then assignee <- find_user (prop updates "assigneeId") ;;
                       ret (is_null assignee)
                  else ret false) ;;
               if unknown then ret (failure "User yang di-assign tidak ditemukan")
               else
                 updatedTask <- on_tasks (TaskRepository_update taskId updates)
                                         (TaskRepository.update taskId updates) ;;
                 ret {| Response.success := true;
                        Response.data := Some (task_or_null updatedTask);
                        Response.message := Some "Task berhasil diupdate";
                        Response.error := None; Response.count := None;
                        Response.query := None |}
         end
     end)
    (fun e => ret (failure e)).

Definition deleteTask (taskId : JSValue) : M Controller Response.t :=
  try_catch
    (user <- gets currentUser ;;
     match user with
     | None => ret (failure must_login)
     | Some user =>
         task <- on_tasks (TaskRepository_findById taskId)
                          (gets (TaskRepository.findById taskId)) ;;
         match task with
         | None => ret (failure "Task tidak ditemukan")
         | Some task =>
             if negb (strict_eq (JStr (Task.ownerId task)) (JStr (User.id user)))
             then ret (failure "Hanya owner yang bisa menghapus task")
             else
               deleted <- on_tasks (TaskRepository_delete taskId)
                                   (TaskRepository.delete taskId) ;;
               if deleted
               then ret {| Response.success := true;
                           Response.data := None;
                           Response.message :=
                             Some ("Task " +:+ dquote +:+ Task.title task +:+ dquote
                                   +:+ " berhasil dihapus");
                           Response.error := None; Response.count := None;
                           Response.query := None |}
               else ret (failure "Gagal menghapus task")
         end
     end)
    (fun e => ret (failure e)).

(** No login check here: [this.currentUser.id] is read as it is. *)
Definition toggleTaskStatus (taskId : JSValue) : M Controller Response.t :=
  try_catch
    (task <- on_tasks (TaskRepository_findById taskId)
                      (gets (TaskRepository.findById taskId)) ;;
     match task with
     | None => ret (failure "Task tidak ditemukan")
     | Some task =>
         stranger <-
           (id <- currentUser_id ;;
            if negb (strict_eq (JStr (Task.ownerId task)) (JStr id))
            then id' <- currentUser_id ;;
                 ret (negb (strict_eq (assignee_value task) (JStr id')))
            else ret false) ;;
         if stranger then ret (failure "Anda tidak memiliki akses ke task ini")
         else
           let newStatus :=
             if String.eqb (Task.status task) "completed" then "pending" else "completed" in
           let updates : Obj := {[ "status" := JStr newStatus ]} in
           updatedTask <- on_tasks (TaskRepository_update taskId updates)
                                   (TaskRepository.update taskId updates) ;;
           ret {| Response.success := true;
                  Response.data := Some (task_or_null updatedTask);
                  Response.message :=
                    Some ("Task " +:+ (if String.eqb newStatus "completed"
                                       then "selesai" else "belum selesai"));
                  Response.error := None; Response.count := None;
                  Response.query := None |}
     end)
    (fun e => ret (failure e)).

Definition searchTasks (query : JSValue) : M Controller Response.t :=
  try_catch
    (user <- gets currentUser ;;
     match user with
     | None => ret (failure must_login)
     | Some user =>
         empty <- blank "query" query ;;
         if empty then ret (failure "Query pencarian tidak boleh kosong")
         else
           allResults <- on_tasks (TaskRepository_search query)
                                  (fun r => (TaskRepository.search query r, r)) ;;
           let userResults := List.filter (involves (User.id user)) allResults in
           ret {| Response.success := true;
                  Response.data := Some (DTasks userResults);
                  Response.message := None; Response.error := None;
                  Response.count := Some (length userResults);
                  Response.query := Some query |}
     end)
    (fun e => ret (failure e)).

Definition getTaskStats : M Controller Response.t :=
  try_catch
    (user <- gets currentUser ;;
     match user with
     | None => ret (failure must_login)
     | Some user =>
         stats <- on_tasks (TaskRepository_getStats (JStr (User.id user)))
                           (gets (TaskRepository.getStats (JStr (User.id user)))) ;;
         ret {| Response.success := true;
                Response.data := Some (DStats stats);
                Response.message := None; Response.error := None;
                Response.count := None; Response.query := None |}
     end)
    (fun e => ret (failure e)).

Definition getOverdueTasks : M Controller Response.t :=
  try_catch
    (user <- gets currentUser ;;
     match user with
     | None => ret (failure must_login)
     | Some user =>
         found <- on_tasks TaskRepository_findOverdue (gets TaskRepository.findOverdue) ;;
         let overdueTasks := List.filter (involves (User.id user)) found in
         ret {| Response.success := true;
                Response.data := Some (DTasks overdueTasks);
                Response.message := None; Response.error := None;
                Response.count := Some (length overdueTasks);
                Response.query := None |}
     end)
    (fun e => ret (failure e)).

(** [getTasksDueSoon(days = 3)]: [None] is the omitted argument. *)
Definition getTasksDueSoon (days : option Z) : M Controller Response.t :=
  let days := match days with Some d => d | None => 3 end in
  try_catch
    (user <- gets currentUser ;;
     match user with
     | None => ret (failure must_login)
     | Some user =>
         found <- on_tasks (TaskRepository_findDueSoon days)
                           (gets (TaskRepository.findDueSoon (Some days))) ;;
         let dueSoonTasks := List.filter (involves (User.id user)) found in
         ret {| Response.success := true;
                Response.data := Some (DTasks dueSoonTasks);
                Response.message := None; Response.error := None;
                Response.count := Some (length dueSoonTasks);
                Response.query := None |}
     end)
    (fun e => ret (failure e)).

End Controller.
End TaskController.

(** ** A concrete entity layer

    Modelled from the spec: the [EnhancedTask] entity, whose file is not
    among the sources.  Spec 3 (data model): priority is one of
    low, medium, high, urgent; status one of pending, in-progress, blocked,
    completed, cancelled; a task is overdue when its due date is past and
    its status is neither completed nor cancelled; tags are a set in
    insertion order; notes an ordered list; time spent an accumulator.
    Spec 4.1: a mutation may validate its argument and fail with a domain
    error.  This instance serves to run the repository and the controller
    on concrete inputs; every theorem below is stated for an arbitrary
    entity layer. *)
Module SampleEntity.

(** The day the examples run: 2024-01-01T00:00:00Z. *)
Definition today : Z := 1704067200000.

Definition day : Z := 86400000.

Definition open_status (status : string) : bool :=
  negb (String.eqb status "completed" || String.eqb status "cancelled").

Definition valid_status (status : string) : bool :=
  existsb (String.eqb status) ["pending"; "in-progress"; "blocked"; "completed"; "cancelled"].

Definition valid_priority (priority : string) : bool :=
  existsb (String.eqb priority) ["low"; "medium"; "high"; "urgent"].

(** Recompute the derived fields. *)
Definition derive (t : Task.t) : Task.t :=
  {| Task.id := Task.id t; Task.title := Task.title t;
     Task.description := Task.description t; Task.ownerId := Task.ownerId t;
     Task.assigneeId := Task.assigneeId t; Task.category := Task.category t;
     Task.priority := Task.priority t; Task.status := Task.status t;
     Task.dueDate := Task.dueDate t;
     Task.isOverdue :=
       match Task.dueDate t with
       | Some d => Z.ltb d today && open_status (Task.status t)
       | None => false
       end;
     Task.daysUntilDue :=
       match Task.dueDate t with
       | Some d => Some (- ((today - d) / day))
       | None => None
       end;
     Task.estimatedHours := Task.estimatedHours t; Task.timeSpent := Task.timeSpent t;
     Task.tags := Task.tags t; Task.notes := Task.notes t;
     Task.createdAt := Task.createdAt t |}.

Definition rejected (t : Task.t) (what : string) : Task.t * option string :=
  (t, Some ("Invalid " +:+ what)).

Definition set_title (title : string) (t : Task.t) : Task.t :=
  Task.mk (Task.id t) title (Task.description t) (Task.ownerId t) (Task.assigneeId t)
    (Task.category t) (Task.priority t) (Task.status t) (Task.dueDate t) (Task.isOverdue t)
    (Task.daysUntilDue t) (Task.estimatedHours t) (Task.timeSpent t) (Task.tags t)
    (Task.notes t) (Task.createdAt t).

Definition set_description (description : string) (t : Task.t) : Task.t :=
  Task.mk (Task.id t) (Task.title t) description (Task.ownerId t) (Task.assigneeId t)
    (Task.category t) (Task.priority t) (Task.status t) (Task.dueDate t) (Task.isOverdue t)
    (Task.daysUntilDue t) (Task.estimatedHours t) (Task.timeSpent t) (Task.tags t)
    (Task.notes t) (Task.createdAt t).

Definition set_assignee (assigneeId : option string) (t : Task.t) : Task.t :=
  Task.mk (Task.id t) (Task.title t) (Task.description t) (Task.ownerId t) assigneeId
    (Task.category t) (Task.priority t) (Task.status t) (Task.dueDate t) (Task.isOverdue t)
    (Task.daysUntilDue t) (Task.estimatedHours t) (Task.timeSpent t) (Task.tags t)
    (Task.notes t) (Task.createdAt t).

Definition set_category (category : string) (t : Task.t) : Task.t :=
  Task.mk (Task.id t) (Task.title t) (Task.description t) (Task.ownerId t) (Task.assigneeId t)
    category (Task.priority t) (Task.status t) (Task.dueDate t) (Task.isOverdue t)
    (Task.daysUntilDue t) (Task.estimatedHours t) (Task.timeSpent t) (Task.tags t)
    (Task.notes t) (Task.createdAt t).

Definition set_priority (priority : string) (t : Task.t) : Task.t :=
  Task.mk (Task.id t) (Task.title t) (Task.description t) (Task.ownerId t) (Task.assigneeId t)
    (Task.category t) priority (Task.status t) (Task.dueDate t) (Task.isOverdue t)
    (Task.daysUntilDue t) (Task.estimatedHours t) (Task.timeSpent t) (Task.tags t)
    (Task.notes t) (Task.createdAt t).

Definition set_status (status : string) (t : Task.t) : Task.t :=
  derive (Task.mk (Task.id t) (Task.title t) (Task.description t) (Task.ownerId t)
    (Task.assigneeId t) (Task.category t) (Task.priority t) status (Task.dueDate t)
    (Task.isOverdue t) (Task.daysUntilDue t) (Task.estimatedHours t) (Task.timeSpent t)
    (Task.tags t) (Task.notes t) (Task.createdAt t)).

Definition set_dueDate (dueDate : option Z) (t : Task.t) : Task.t :=
  derive (Task.mk (Task.id t) (Task.title t) (Task.description t) (Task.ownerId t)
    (Task.assigneeId t) (Task.category t) (Task.priority t) (Task.status t) dueDate
    (Task.isOverdue t) (Task.daysUntilDue t) (Task.estimatedHours t) (Task.timeSpent t)
    (Task.tags t) (Task.notes t) (Task.createdAt t)).

Definition set_hours (estimatedHours timeSpent : Z) (t : Task.t) : Task.t :=
  Task.mk (Task.id t) (Task.title t) (Task.description t) (Task.ownerId t) (Task.assigneeId t)
    (Task.category t) (Task.priority t) (Task.status t) (Task.dueDate t) (Task.isOverdue t)
    (Task.daysUntilDue t) estimatedHours timeSpent (Task.tags t) (Task.notes t)
    (Task.createdAt t).

Definition set_tags_notes (tags notes : list string) (t : Task.t) : Task.t :=
  Task.mk (Task.id t) (Task.title t) (Task.description t) (Task.ownerId t) (Task.assigneeId t)
    (Task.category t) (Task.priority t) (Task.status t) (Task.dueDate t) (Task.isOverdue t)
    (Task.daysUntilDue t) (Task.estimatedHours t) (Task.timeSpent t) tags notes
    (Task.createdAt t).

Definition sample_updateTitle : Mutation := fun t v =>
  match v with
  | JStr s => if String.eqb (trim s) "" then rejected t "title" else (set_title (trim s) t, None)
  | _ => rejected t "title"
  end.

Definition sample_updateDescription : Mutation := fun t v =>
  match v with
  | JStr s => (set_description s t, None)
  | _ => rejected t "description"
  end.

Definition sample_updateCategory : Mutation := fun t v =>
  match v with
  | JStr s => (set_category s t, None)
  | _ => rejected t "category"
  end.

Definition sample_updatePriority : Mutation := fun t v =>
  match v with
  | JStr s => if valid_priority s then (set_priority s t, None) else rejected t ("priority: " +:+ s)
  | _ => rejected t "priority"
  end.

Definition sample_updateStatus : Mutation := fun t v =>
  match v with
  | JStr s => if valid_status s then (set_status s t, None) else rejected t ("status: " +:+ s)
  | _ => rejected t "status"
  end.

Definition sample_setDueDate : Mutation := fun t v =>
  match v with
  | JNum d => (set_dueDate (Some d) t, None)
  | JNull => (set_dueDate None t, None)
  | _ => rejected t "due date"
  end.

Definition sample_assignTo : Mutation := fun t v =>
  match v with
  | JStr s => (set_assignee (Some s) t, None)
  | JNull => (set_assignee None t, None)
  | _ => rejected t "assignee"
  end.

Definition sample_setEstimatedHours : Mutation := fun t v =>
  match v with
  | JNum n => if Z.leb 0 n then (set_hours n (Task.timeSpent t) t, None)
              else rejected t "estimated hours"
  | _ => rejected t "estimated hours"
  end.

Definition sample_addTimeSpent : Mutation := fun t v =>
  match v with
  | JNum n => if Z.ltb 0 n then (set_hours (Task.estimatedHours t) (Task.timeSpent t + n) t, None)
              else rejected t "time spent"
  | _ => rejected t "time spent"
  end.

Definition sample_addTag : Mutation := fun t v =>
  match v with
  | JStr s =>
      if existsb (String.eqb s) (Task.tags t) then (t, None)
      else (set_tags_notes (Task.tags t ++ [s]) (Task.notes t) t, None)
  | _ => rejected t "tag"
  end.

Definition sample_removeTag : Mutation := fun t v =>
  match v with
  | JStr s =>
      (set_tags_notes (List.filter (fun tag => negb (String.eqb s tag)) (Task.tags t))
                      (Task.notes t) t, None)
  | _ => rejected t "tag"
  end.

Definition sample_addNote : Mutation := fun t v =>
  match v with
  | JStr s => (set_tags_notes (Task.tags t) (Task.notes t ++ [s]) t, None)
  | _ => rejected t "note"
  end.

(** [options.key], when it is a string, else a default. *)
Definition string_option (options : Obj) (key fallback : string) : string :=
  match prop options key with
  | JStr s => s
  | _ => fallback
  end.

Definition sample_construct (clock : nat) (title description ownerId : JSValue)
    (options : Obj) : Completion Task.t :=
  match title, description, ownerId with
  | JStr title, JStr description, JStr ownerId =>
      if String.eqb (trim title) "" then Throw "Invalid title"
      else if negb (valid_priority (string_option options "priority" "medium"))
      then Throw ("Invalid priority: " +:+ string_option options "priority" "medium")
      else
        Normal (derive
          {| Task.id := "task_" +:+ pretty clock;
             Task.title := trim title;
             Task.description := description;
             Task.ownerId := ownerId;
             Task.assigneeId := Some (string_option options "assigneeId" ownerId);
             Task.category := string_option options "category" "other";
             Task.priority := string_option options "priority" "medium";
             Task.status := "pending";
             Task.dueDate := match prop options "dueDate" with
                             | JNum d => Some d
                             | _ => None
                             end;
             Task.isOverdue := false;
             Task.daysUntilDue := None;
             Task.estimatedHours := 0;
             Task.timeSpent := 0;
             Task.tags := match prop options "tags" with
                          | JArr tags => tags
                          | _ => []
                          end;
             Task.notes := [];
             Task.createdAt := today + Z.of_nat clock |})
  | _, _, _ => Throw "Invalid task"
  end.

Definition ops : EnhancedTaskOps :=
  {| construct := sample_construct;
     updateTitle := sample_updateTitle;
     updateDescription := sample_updateDescription;
     updateCategory := sample_updateCategory;
     updatePriority := sample_updatePriority;
     updateStatus := sample_updateStatus;
     setDueDate := sample_setDueDate;
     assignTo := sample_assignTo;
     setEstimatedHours := sample_setEstimatedHours;
     addTimeSpent := sample_addTimeSpent;
     addTag := sample_addTag;
     removeTag := sample_removeTag;
     addNote := sample_addNote |}.

End SampleEntity.

(** ** Sample data *)

Module Fixture.

Definition alice : User.t := User.mk "u1" "alice" "alice@example.com" "Alice" true.
Definition bob : User.t := User.mk "u2" "bob" "bob@example.com" "Bob" true.

(** A task due in [days] days ([None]: no due date), created at [created]. *)
Definition task (id owner assignee priority status : string) (days : option Z)
    (created : Z) : Task.t :=
  {| Task.id := id; Task.title := "Task " +:+ id; Task.description := "";
     Task.ownerId := owner; Task.assigneeId := Some assignee;
     Task.category := "work"; Task.priority := priority; Task.status := status;
     Task.dueDate := match days with
                     | Some d => Some (SampleEntity.today + d * SampleEntity.day)
                     | None => None
                     end;
     Task.isOverdue := match days with
                       | Some d => Z.ltb d 0 && SampleEntity.open_status status
                       | None => false
                       end;
     Task.daysUntilDue := days;
     Task.estimatedHours := 0; Task.timeSpent := 0;
     Task.tags := []; Task.notes := []; Task.createdAt := created |}.

(** Owned by alice, assigned to bob, due in two days. *)
Definition t1 : Task.t := task "t1" "u1" "u2" "high" "pending" (Some 2) 10.
(** Owned by bob, assigned to alice, two days overdue. *)
Definition t2 : Task.t := task "t2" "u2" "u1" "urgent" "pending" (Some (-2)) 20.
(** Owned by alice, no due date. *)
Definition t3 : Task.t := task "t3" "u1" "u1" "low" "completed" None 30.
(** Owned by alice, medium priority. *)
Definition t4 : Task.t := task "t4" "u1" "u1" "medium" "pending" (Some 10) 40.

Definition repo_of (tasks : list Task.t) : Repo :=
  {| tasks := List.map (fun t => (Task.id t, t)) tasks;
     storage := {| saved := tasks; saveCalls := 0 |};
     clock := 0 |}.

Definition repo : Repo := repo_of [t1; t2; t3; t4].

(** A controller on which [setCurrentUser] was never called. *)
Definition logged_out : Controller :=
  {| taskRepository := repo; userRepository := [alice; bob];
     currentUser := None; calls := [] |}.

Definition as_alice : Controller :=
  {| taskRepository := repo; userRepository := [alice; bob];
     currentUser := Some alice; calls := [] |}.

Definition as_bob : Controller :=
  {| taskRepository := repo; userRepository := [alice; bob];
     currentUser := Some bob; calls := [] |}.

End Fixture.

(** ** Vocabulary of the statements *)

(** [id] is not a key of the index. *)
Definition absent (id : JSValue) (r : Repo) : Prop :=
  forall k, id = JStr k -> ~ In k (List.map fst (tasks r)).

(** [daysUntilDue] is negative: the due date has passed. *)
Definition past_due (t : Task.t) : bool :=
  match Task.daysUntilDue t with
  | Some d => Z.ltb d 0
  | None => false
  end.

(** The controller with [currentUser] reset to [null]. *)
Definition logout (s : Controller) : Controller :=
  {| taskRepository := taskRepository s; userRepository := userRepository s;
     currentUser := None; calls := calls s |}.




(** What [_saveTasksToStorage] leaves behind. *)
Definition persisted (r : Repo) : Repo :=
  {| tasks := tasks r;
     storage := {| saved := TaskMap.values (tasks r);
                   saveCalls := S (saveCalls (storage r)) |};
     clock := clock r |}.

(** The index of [r] with the task under key [k] in state [task]. *)
Definition with_task (k : string) (task : Task.t) (r : Repo) : Repo :=
  with_tasks (TaskMap.set k task (tasks r)) r.

(** The contract of [update], in the spec's words: the recognized keys in
    their fixed order, each with its mutation operation. *)
Definition mutation_table `{EnhancedTaskOps} : list (string * Mutation) :=
  [ ("title", updateTitle); ("description", updateDescription);
    ("category", updateCategory); ("priority", updatePriority);
    ("status", updateStatus); ("dueDate", setDueDate);
    ("assigneeId", assignTo); ("estimatedHours", setEstimatedHours);
    ("addTimeSpent", addTimeSpent); ("addTag", addTag);
    ("removeTag", removeTag); ("addNote", addNote) ].

Definition recognized_keys : list string :=
  [ "title"; "description"; "category"; "priority"; "status"; "dueDate";
    "assigneeId"; "estimatedHours"; "addTimeSpent"; "addTag"; "removeTag";
    "addNote" ].

(** The mutations a table asks for: one per key whose value in [updates]
    is not [undefined], in the table's order. *)
Definition requested_from (table : list (string * Mutation)) (updates : Obj)
  : list (Task.t -> Task.t * option string) :=
  List.flat_map
    (fun entry : string * Mutation =>
       let v := prop updates (fst entry) in
       if defined v then [fun task => snd entry task v] else [])
    table.

Definition requested `{EnhancedTaskOps} (updates : Obj)
  : list (Task.t -> Task.t * option string) :=
  requested_from mutation_table updates.

(** Run mutations one after the other on a task, stopping at the first
    that fails; the task is returned as the last mutation run left it. *)
Fixpoint run_all (mutations : list (Task.t -> Task.t * option string)) (task : Task.t)
  : Task.t * option string :=
  match mutations with
  | [] => (task, None)
  | m :: rest =>
      match m task with
      | (task', None) => run_all rest task'
      | (task', Some e) => (task', Some e)
      end
  end.

(** The conditional statements of [update] for the entries of a table,
    followed by [rest]. *)
Definition statements (id : JSValue) (updates : Obj) (table : list (string * Mutation))
    {A} (rest : M Repo A) : M Repo A :=
  fold_right
    (fun entry rest =>
       bind (TaskRepository.apply_update id updates (fst entry) (snd entry)) (fun _ => rest))
    rest table.

(** A query that is absent, or a string of white space only (the empty
    string included). *)
Definition blank_query (query : JSValue) : Prop :=
  query = JUndefined \/ query = JNull
  \/ exists str, query = JStr str
                 /\ Forall (fun c => is_whitespace c = true) (list_ascii_of_string str).

(** The controller after it has invoked the repository methods [cs]. *)
Definition after_calls (cs : list Call) (s : Controller) : Controller :=
  {| taskRepository := taskRepository s; userRepository := userRepository s;
     currentUser := currentUser s; calls := calls s ++ cs |}.

(** The controller with its task repository in state [r]. *)
Definition with_repo (r : Repo) (s : Controller) : Controller :=
  {| taskRepository := r; userRepository := userRepository s;
     currentUser := currentUser s; calls := calls s |}.

(** The ordinal the comparator gives a task for its priority; 0 stands for
    a priority outside the table. *)
Definition ordinal (t : Task.t) : Z :=
  match TaskRepository.priority_ordinal (Task.priority t) with
  | Some n => n
  | None => 0
  end.

(** The task's priority is one of the four of the data model. *)
Definition known_priority (t : Task.t) : Prop :=
  In (Task.priority t) ["low"; "medium"; "high"; "urgent"].

(** The storage port holds exactly the tasks of the index, in its order. *)
Definition mirrored (r : Repo) : Prop :=
  saved (storage r) = TaskRepository.findAll r.

(** An option of [filters] constrains a task only when its value is
    truthy. *)
Definition wanted (v : JSValue) (p : Task.t -> bool) (t : Task.t) : bool :=
  if truthy v then p t else true.

(** The tag option: a non-empty array asks for at least one of its tags. *)
Definition wanted_tags (v : JSValue) (t : Task.t) : bool :=
  match v with
  | JArr (tag :: more) => existsb (fun tag => TaskRepository.has_tag tag t) (tag :: more)
  | _ => true
  end.

(** The scalar options of [filters], taken together. *)
Definition selects_fields (filters : Obj) (t : Task.t) : bool :=
  wanted (prop filters "ownerId")
         (fun t => strict_eq (JStr (Task.ownerId t)) (prop filters "ownerId")) t
  && wanted (prop filters "assigneeId")
            (fun t => strict_eq (assignee_value t) (prop filters "assigneeId")) t
  && wanted (prop filters "category")
            (fun t => strict_eq (JStr (Task.category t)) (prop filters "category")) t
  && wanted (prop filters "status")
            (fun t => strict_eq (JStr (Task.status t)) (prop filters "status")) t
  && wanted (prop filters "priority")
            (fun t => strict_eq (JStr (Task.priority t)) (prop filters "priority")) t
  && wanted (prop filters "overdue") (fun t => Task.isOverdue t) t
  && wanted (prop filters "dueSoon") (TaskRepository.due_within 3) t.

(** All options of [filters], taken together. *)
Definition selects (filters : Obj) (t : Task.t) : bool :=
  selects_fields filters t && wanted_tags (prop filters "tags") t.

(** The number [sort] compares tasks by when the sort field is not the
    title: the priority ordinal, the due date (the far future when there
    is none), or the creation date for any other field. *)
Definition sort_number (sortBy : JSValue) (t : Task.t) : Z :=
  if strict_eq sortBy (JStr "priority") then ordinal t
  else if strict_eq sortBy (JStr "dueDate") then
    match Task.dueDate t with
    | Some d => d
    | None => TaskRepository.far_future
    end
  else Task.createdAt t.

(** [a] may stand before [b] in a list sorted by [sortBy] in direction
    [order]: titles compare lower-cased, code unit by code unit; every
    direction other than ['asc'] is descending. *)
Definition in_order (sortBy order : JSValue) (a b : Task.t) : Prop :=
  if strict_eq sortBy (JStr "title") then
    if strict_eq order (JStr "asc")
    then String.leb (toLowerCase (Task.title a)) (toLowerCase (Task.title b)) = true
    else String.leb (toLowerCase (Task.title b)) (toLowerCase (Task.title a)) = true
  else
    if strict_eq order (JStr "asc")
    then sort_number sortBy a <= sort_number sortBy b
    else sort_number sortBy b <= sort_number sortBy a.

(** Sorting by priority presupposes priorities of the table. *)
Definition sortable (sortBy : JSValue) (t : Task.t) : Prop :=
  strict_eq sortBy (JStr "priority") = true -> known_priority t.

(** The tasks [getStats(userId)] counts: the owner's for a truthy
    [userId], all of them otherwise. *)
Definition stats_scope (userId : JSValue) (r : Repo) : list Task.t :=
  if truthy userId then TaskRepository.findByOwner userId r else TaskRepository.findAll r.

(** The counts of a breakdown, added up. *)
Definition sum_counts (breakdown : list (string * nat)) : nat :=
  fold_right Nat.add 0%nat (List.map snd breakdown).

(** The value of [field] is none of [keys]. *)
Definition outside (field : Task.t -> string) (keys : list string) (t : Task.t) : bool :=
  negb (existsb (String.eqb (field t)) keys).

(** The repositories and the login of [s'] are those of [s]; only the
    record of calls may differ. *)
Definition untouched (s s' : Controller) : Prop :=
  taskRepository s' = taskRepository s
  /\ userRepository s' = userRepository s
  /\ currentUser s' = currentUser s.

(** The tasks a response hands out in [data]. *)
Definition tasks_of (resp : Response.t) : list Task.t :=
  match Response.data resp with
  | Some (DTask t) => [t]
  | Some (DTasks l) => l
  | _ => []
  end.

(** The user with id [uid] owns the task or is its assignee. *)
Definition owner_or_assignee (uid : string) (t : Task.t) : Prop :=
  Task.ownerId t = uid \/ Task.assigneeId t = Some uid.

(** The tasks an operation hands out: those in the [data] of its
    response. *)
Definition handed_out (outcome : Completion Response.t * Controller) : list Task.t :=
  match fst outcome with
  | Normal resp => tasks_of resp
  | Throw _ => []
  end.

(** A task of the index the current user owns or is assigned. *)
Definition visible_to_user (s : Controller) (t : Task.t) : Prop :=
  exists user,
    currentUser s = Some user
    /\ owner_or_assignee (User.id user) t
    /\ In t (TaskRepository.findAll (taskRepository s)).

(** [updates.assigneeId] passes the controller's check: it is falsy, or
    the id of an existing user. *)
Definition assignee_accepted (updates : Obj) (s : Controller) : Prop :=
  truthy (prop updates "assigneeId") = false
  \/ exists u, UserRepository.findById (prop updates "assigneeId") (userRepository s) = Some u.

(** The status [toggleTaskStatus] asks for. *)
Definition toggled (status : string) : string :=
  if String.eqb status "completed" then "pending" else "completed".

(** An entity layer whose [updateStatus] accepts ['pending'] and
    ['completed'], sets the status and keeps owner and assignee. *)
Definition sets_status `{EnhancedTaskOps} : Prop :=
  forall (t : Task.t) (status : string),
    status = "pending" \/ status = "completed" ->
    exists t',
      updateStatus t (JStr status) = (t', None)
      /\ Task.status t' = status
      /\ Task.ownerId t' = Task.ownerId t
      /\ Task.assigneeId t' = Task.assigneeId t.

(** ** Loading the index from storage *)

Section Loading.

(** The serialized form of a task and the entity's two conversions,
    [task.toJSON()] and [EnhancedTask.fromJSON(data)]; the latter may
    throw. *)
Variable JSON : Type.
Variable toJSON : Task.t -> JSON.
Variable fromJSON : JSON -> Completion Task.t.

(** The [forEach] of [_loadTasksFromStorage]: each record is parsed and
    stored under the id of the task it yields.  A record that fails to
    parse ends the loop, since the [try] encloses it; what was stored so
    far stays. *)
Fixpoint load_each (tasksData : list JSON) (index : TaskMap.t) : TaskMap.t :=
  match tasksData with
  | [] => index
  | data :: rest =>
      match fromJSON data with
      | Normal task => load_each rest (TaskMap.set (Task.id task) task index)
      | Throw _ => index
      end
  end.

(** [_loadTasksFromStorage], run by the constructor on an empty index:
    [loaded] is what [storage.load('tasks', [])] returned or threw.  Every
    error is logged and swallowed. *)
Definition _loadTasksFromStorage (loaded : Completion (list JSON)) : TaskMap.t :=
  match loaded with
  | Normal tasksData => load_each tasksData []
  | Throw _ => []
  end.

(** What [_saveTasksToStorage] handed to [storage.save]: the tasks of the
    index, each through [toJSON]. *)
Definition serialized (r : Repo) : list JSON :=
  List.map toJSON (saved (storage r)).

End Loading.

(** Every task of the index is stored under its own id, and no id occurs
    twice. *)
Definition keyed_by_id (m : TaskMap.t) : Prop :=
  Forall (fun entry => Task.id (snd entry) = fst entry) m
  /\ List.NoDup (List.map fst m).

(** * Properties *)

(** ** The monad *)

Lemma bind_ret_l {S A B} (a : A) (k : A -> M S B) (s : S) :
  bind (ret a) k s = k a s.
Proof. reflexivity. Qed.

Lemma bind_gets {S A B} (f : S -> A) (k : A -> M S B) (s : S) :
  bind (gets f) k s = k (f s) s.
Proof. reflexivity. Qed.

Lemma bind_assoc {S A B C} (m : M S A) (k : A -> M S B) (k' : B -> M S C) (s : S) :
  bind (bind m k) k' s = bind m (fun a => bind (k a) k') s.
Proof. unfold bind. destruct (m s) as [[a|e] s']; reflexivity. Qed.

(** ** The index *)

Lemma TaskMap_get_None (k : string) (m : TaskMap.t) :
  TaskMap.get k m = None <-> ~ In k (List.map fst m).
Proof.
  induction m as [|[k' v] m IH]; simpl.
  - tauto.
  - destruct (String.eqb_spec k k') as [->|Hne].
    + split; [discriminate | intros Hn; exfalso; apply Hn; now left].
    + rewrite IH. split.
      * intros Hn [Heq|Hin]; [congruence | contradiction].
      * intros Hn Hin. apply Hn. now right.
Qed.

Lemma TaskMap_get_set (k : string) (v : Task.t) (m : TaskMap.t) :
  TaskMap.get k (TaskMap.set k v m) = Some v.
Proof.
  induction m as [|[k' v'] m IH]; simpl.
  - now rewrite String.eqb_refl.
  - destruct (String.eqb_spec k k') as [->|Hne]; simpl.
    + now rewrite String.eqb_refl.
    + destruct (String.eqb_spec k k'); [contradiction | exact IH].
Qed.

Lemma TaskMap_set_set (k : string) (v v' : Task.t) (m : TaskMap.t) :
  TaskMap.set k v' (TaskMap.set k v m) = TaskMap.set k v' m.
Proof.
  induction m as [|[k0 v0] m IH]; simpl.
  - now rewrite String.eqb_refl.
  - destruct (String.eqb_spec k k0) as [->|Hne]; simpl.
    + now rewrite String.eqb_refl.
    + destruct (String.eqb_spec k k0); [contradiction | now rewrite IH].
Qed.

Lemma TaskMap_set_same (k : string) (v : Task.t) (m : TaskMap.t) :
  TaskMap.get k m = Some v -> TaskMap.set k v m = m.
Proof.
  induction m as [|[k0 v0] m IH]; simpl; [discriminate|].
  destruct (String.eqb_spec k k0) as [->|Hne].
  - now intros [= ->].
  - intros Hg. now rewrite IH.
Qed.

(** ** Absence is a result, not an error *)

Lemma findById_absent (id : JSValue) (r : Repo) :
  absent id r -> TaskRepository.findById id r = None.
Proof.
  intros Ha. destruct id; try reflexivity.
  simpl. apply TaskMap_get_None. now apply Ha.
Qed.

(** C8. For an id that is not in the index, [findById] returns [null],
    [update] returns [null] and [delete] returns [false]; none of them
    throws, and neither [update] nor [delete] changes the index or calls
    the storage port. *)
Theorem absent_id_yields_null `{EnhancedTaskOps} (id : JSValue) (updates : Obj) (r : Repo) :
  absent id r ->
  TaskRepository.findById id r = None
  /\ TaskRepository.update id updates r = (Normal None, r)
  /\ TaskRepository.delete id r = (Normal false, r).
Proof.
  intros Ha. pose proof (findById_absent id r Ha) as Hf.
  split; [exact Hf|]. split.
  - unfold TaskRepository.update. rewrite bind_gets, Hf. reflexivity.
  - unfold TaskRepository.delete. rewrite bind_gets.
    destruct id; try reflexivity.
    simpl in Hf. unfold TaskMap.has. rewrite Hf. reflexivity.
Qed.

(** On the sample index, ['t9'] is absent. *)
Lemma absent_id_yields_null_witness :
  TaskRepository.findById (JStr "t9") Fixture.repo = None
  /\ @TaskRepository.update SampleEntity.ops (JStr "t9") {[ "title" := JStr "x" ]} Fixture.repo
     = (Normal None, Fixture.repo)
  /\ TaskRepository.delete (JStr "t9") Fixture.repo = (Normal false, Fixture.repo).
Proof.
  apply (@absent_id_yields_null SampleEntity.ops).
  intros k [= <-]. vm_compute. intuition discriminate.
Defined.

(** ** Statistics *)

Lemma filter_length_split {A} (p q : A -> bool) (l : list A) :
  (forall x, p x = true -> q x = false) ->
  length (List.filter (fun x => p x || q x) l)
  = (length (List.filter p l) + length (List.filter q l))%nat.
Proof.
  intros Hpq. induction l as [|x l IH]; simpl; [reflexivity|].
  destruct (p x) eqn:Hp; simpl.
  - rewrite (Hpq x Hp). simpl. now rewrite IH.
  - destruct (q x); simpl; rewrite IH; lia.
Qed.

(** X2. What [getStats] counts as due soon: the tasks [findDueSoon(3)] would
    keep, and on top of them every task whose [daysUntilDue] is negative. *)
Lemma getStats_dueSoon_split (userId : JSValue) (r : Repo) :
  let scope := if truthy userId
               then TaskRepository.findByOwner userId r
               else TaskRepository.findAll r in
  Stats.dueSoon (TaskRepository.getStats userId r)
  = (length (List.filter (TaskRepository.due_within 3) scope)
     + length (List.filter past_due scope))%nat.
Proof.
  intros scope. unfold TaskRepository.getStats. simpl. fold scope.
  unfold TaskRepository.count.
  rewrite <- filter_length_split.
  - f_equal. apply List.filter_ext. intros t.
    unfold TaskRepository.counted_due_soon, TaskRepository.due_within, past_due.
    destruct (Task.daysUntilDue t) as [d|]; [|reflexivity].
    destruct (Z.leb_spec d 3), (Z.leb_spec 0 d), (Z.ltb_spec d 0); simpl; try reflexivity; lia.
  - intros t. unfold TaskRepository.due_within, past_due.
    destruct (Task.daysUntilDue t) as [d|]; [|discriminate].
    destruct (Z.leb_spec d 3), (Z.leb_spec 0 d), (Z.ltb_spec d 0); simpl; try reflexivity;
      try discriminate; lia.
Qed.

(** C2. On an index holding one task that is two days overdue,
    [getStats().dueSoon] is 1 although no task has [daysUntilDue] in
    [[0, 3]] and [findDueSoon(3)] is empty: the count lacks the lower
    bound [daysUntilDue >= 0] that [findDueSoon] and [filter] apply. *)
Theorem getStats_dueSoon_counts_overdue :
  Task.daysUntilDue Fixture.t2 = Some (-2)
  /\ Stats.dueSoon (TaskRepository.getStats JNull (Fixture.repo_of [Fixture.t2])) = 1%nat
  /\ TaskRepository.findDueSoon (Some 3) (Fixture.repo_of [Fixture.t2]) = []
  /\ Stats.dueSoon (TaskRepository.getStats (JStr "u2") Fixture.repo) = 1%nat
  /\ List.filter (fun t => String.eqb (Task.ownerId t) "u2")
       (TaskRepository.findDueSoon (Some 3) Fixture.repo) = [].
Proof. repeat split; reflexivity. Qed.

(** ** The login check *)

(** Unfold the monad down to state-passing functions. *)
Ltac run :=
  cbv beta delta [try_catch bind ret throw gets modify lift
                  TaskController.on_tasks TaskController.invoked
                  TaskController.find_user TaskController.currentUser_id
                  TaskController.blank] in *;
  simpl in *.

(** X1. Nine of the ten task operations start with the login check:
    without a current user they answer with the login error and touch nothing. *)
Theorem login_required `{EnhancedTaskOps} (s : Controller)
    (taskData filters updates : Obj) (taskId query : JSValue) (days : option Z) :
  let answer := (Normal (failure TaskController.must_login), logout s) in
  TaskController.createTask taskData (logout s) = answer
  /\ TaskController.getTasks filters (logout s) = answer
  /\ TaskController.getTask taskId (logout s) = answer
  /\ TaskController.updateTask taskId updates (logout s) = answer
  /\ TaskController.deleteTask taskId (logout s) = answer
  /\ TaskController.searchTasks query (logout s) = answer
  /\ TaskController.getTaskStats (logout s) = answer
  /\ TaskController.getOverdueTasks (logout s) = answer
  /\ TaskController.getTasksDueSoon days (logout s) = answer.
Proof. repeat split; reflexivity. Qed.

(** C1. [toggleTaskStatus] has no login check.  Without a current user it
    looks the task up first: for an unknown id the answer is the
    not-found error, and for a known id reading [this.currentUser.id]
    throws a TypeError whose message becomes the error.  In neither case
    is it the login error. *)
Theorem toggleTaskStatus_without_login `{EnhancedTaskOps} (s : Controller) (taskId : JSValue) :
  let message :=
    match TaskRepository.findById taskId (taskRepository s) with
    | None => "Task tidak ditemukan"
    | Some _ => "Cannot read properties of null (reading 'id')"
    end in
  fst (TaskController.toggleTaskStatus taskId (logout s)) = Normal (failure message)
  /\ message <> "User harus login terlebih dahulu".
Proof.
  intros message. subst message.
  unfold TaskController.toggleTaskStatus. run.
  destruct (TaskRepository.findById taskId (taskRepository s)); simpl;
    (split; [reflexivity | discriminate]).
Qed.

(** ** The response envelope *)









(** ** [update]: ordered, partial on failure *)

Section Update.
Context `{EnhancedTaskOps}.

Lemma update_statements (id : JSValue) (updates : Obj) (r : Repo) (task : Task.t) :
  TaskRepository.findById id r = Some task ->
  TaskRepository.update id updates r
  = try_catch
      (statements id updates mutation_table
         (bind TaskRepository._saveTasksToStorage
               (fun _ => gets (TaskRepository.findById id))))
      (fun e => throw e) r.
Proof.
  intros Hf. unfold TaskRepository.update. rewrite bind_gets, Hf. reflexivity.
Qed.

Lemma with_task_same (k : string) (task : Task.t) (r : Repo) :
  TaskMap.get k (tasks r) = Some task -> with_task k task r = r.
Proof.
  intros Hg. unfold with_task, with_tasks. rewrite (TaskMap_set_same _ _ _ Hg).
  now destruct r.
Qed.

Lemma with_task_twice (k : string) (t1 t2 : Task.t) (r : Repo) :
  with_task k t2 (with_task k t1 r) = with_task k t2 r.
Proof. unfold with_task, with_tasks. simpl. now rewrite TaskMap_set_set. Qed.

Lemma get_with_task (k : string) (task : Task.t) (r : Repo) :
  TaskMap.get k (tasks (with_task k task r)) = Some task.
Proof. apply TaskMap_get_set. Qed.

Lemma statements_run (k : string) (updates : Obj) {A} (rest : M Repo A)
    (table : list (string * Mutation)) :
  forall (r : Repo) (task : Task.t),
    TaskMap.get k (tasks r) = Some task ->
    statements (JStr k) updates table rest r
    = match run_all (requested_from table updates) task with
      | (task', None) => rest (with_task k task' r)
      | (task', Some e) => (Throw e, with_task k task' r)
      end.
Proof.
  induction table as [|[key method] table IH]; intros r task Hg.
  - simpl. now rewrite with_task_same.
  - cbn [statements fold_right requested_from flat_map fst snd].
    fold (statements (JStr k) updates table rest).
    fold (requested_from table updates).
    unfold TaskRepository.apply_update.
    destruct (defined (prop updates key)).
    + cbn [app run_all]. unfold bind at 1. unfold TaskRepository.mutate.
      cbn [TaskRepository.findById]. rewrite Hg.
      destruct (method task (prop updates key)) as [task1 [e|]].
      * reflexivity.
      * fold (with_task k task1 r).
        rewrite (IH (with_task k task1 r) task1 (get_with_task _ _ _)).
        destruct (run_all (requested_from table updates) task1) as [task' [e|]];
          now rewrite with_task_twice.
    + cbn [app]. unfold bind at 1. cbn [ret]. now apply IH.
Qed.

(** [update] on a present id is [run_all] over the requested mutations:
    on success the task is stored and the index persisted; on a failure
    the task stays as the failing mutation left it and nothing is saved. *)
Lemma update_run (k : string) (updates : Obj) (r : Repo) (task : Task.t) :
  TaskMap.get k (tasks r) = Some task ->
  TaskRepository.update (JStr k) updates r
  = match run_all (requested updates) task with
    | (task', None) => (Normal (Some task'), persisted (with_task k task' r))
    | (task', Some e) => (Throw e, with_task k task' r)
    end.
Proof.
  intros Hg. rewrite (update_statements _ _ _ task) by exact Hg.
  unfold try_catch. rewrite (statements_run k updates _ mutation_table r task Hg).
  fold (requested updates).
  destruct (run_all (requested updates) task) as [task' [e|]]; [reflexivity|].
  unfold bind, TaskRepository._saveTasksToStorage, modify, gets.
  cbn [TaskRepository.findById]. fold (persisted (with_task k task' r)).
  cbn [persisted tasks]. now rewrite get_with_task.
Qed.

Lemma run_all_failure (pre post : list (Task.t -> Task.t * option string))
    (m : Task.t -> Task.t * option string) (e : string) :
  forall task before after,
    run_all pre task = (before, None) ->
    m before = (after, Some e) ->
    run_all (pre ++ m :: post)%list task = (after, Some e).
Proof.
  induction pre as [|m0 pre IH]; intros task before after Hpre Hm; simpl in *.
  - injection Hpre as <-. now rewrite Hm.
  - destruct (m0 task) as [task0 [e0|]]; [discriminate|]. now apply (IH task0 before).
Qed.

Lemma prop_insert_ne (o : Obj) (key k : string) (v : JSValue) :
  key <> k -> prop (<[key := v]> o) k = prop o k.
Proof. intros Hne. unfold prop. now rewrite lookup_insert_ne. Qed.

Lemma update_ignores_key (id : JSValue) (updates : Obj) (key : string) (v : JSValue) :
  ~ In key recognized_keys ->
  TaskRepository.update id (<[key := v]> updates) = TaskRepository.update id updates.
Proof.
  intros Hk.
  assert (Hp : forall k, In k recognized_keys -> prop (<[key := v]> updates) k = prop updates k).
  { intros k Hin. apply prop_insert_ne. intros ->. contradiction. }
  unfold TaskRepository.update, TaskRepository.apply_update.
  rewrite !Hp by (simpl; tauto). reflexivity.
Qed.

End Update.

(** C4. [update] on a present id applies the mutations of the recognized
    keys present in [updates] in the fixed order title, description,
    category, priority, status, dueDate, assigneeId, estimatedHours,
    addTimeSpent, addTag, removeTag, addNote.  When all succeed the task is
    returned and the index persisted.  When the K-th fails, the mutations
    before it stay applied to the task in the index, none after it runs,
    the error reaches the caller and the storage port is not called.
    Keys outside the twelve are ignored. *)
Theorem update_applies_in_order `{EnhancedTaskOps} (k : string) (task : Task.t)
    (updates : Obj) (r : Repo) :
  TaskMap.get k (tasks r) = Some task ->
  List.map fst mutation_table = recognized_keys
  /\ (forall task',
        run_all (requested updates) task = (task', None) ->
        TaskRepository.update (JStr k) updates r
        = (Normal (Some task'), persisted (with_task k task' r)))
  /\ (forall pre m post before after e,
        requested updates = (pre ++ m :: post)%list ->
        run_all pre task = (before, None) ->
        m before = (after, Some e) ->
        TaskRepository.update (JStr k) updates r = (Throw e, with_task k after r)
        /\ storage (with_task k after r) = storage r)
  /\ (forall key v,
        ~ In key recognized_keys ->
        TaskRepository.update (JStr k) (<[key := v]> updates) r
        = TaskRepository.update (JStr k) updates r).
Proof.
  intros Hg. split; [reflexivity|]. split; [|split].
  - intros task' Hrun. rewrite (update_run k updates r task Hg). now rewrite Hrun.
  - intros pre m post before after e Hreq Hpre Hm. split; [|reflexivity].
    rewrite (update_run k updates r task Hg), Hreq.
    now rewrite (run_all_failure pre post m e task before after Hpre Hm).
  - intros key v Hk. now rewrite update_ignores_key.
Qed.

(** On the sample index: the title is changed, the priority is rejected,
    the status is never reached, nothing is saved. *)
Lemma update_applies_in_order_witness :
  @TaskRepository.update SampleEntity.ops (JStr "t1")
    (<["title" := JStr "Ship it"]> (<["priority" := JStr "bogus"]>
       {[ "status" := JStr "completed" ]}))
    Fixture.repo
  = (Throw "Invalid priority: bogus",
     with_task "t1" (SampleEntity.set_title "Ship it" Fixture.t1) Fixture.repo)
  /\ storage (with_task "t1" (SampleEntity.set_title "Ship it" Fixture.t1) Fixture.repo)
     = storage Fixture.repo.
Proof.
  destruct (@update_applies_in_order SampleEntity.ops "t1" Fixture.t1
              (<["title" := JStr "Ship it"]> (<["priority" := JStr "bogus"]>
                 {[ "status" := JStr "completed" ]}))
              Fixture.repo eq_refl) as (_ & _ & Hfail & _).
  apply (Hfail [fun task => SampleEntity.sample_updateTitle task (JStr "Ship it")]
               (fun task => SampleEntity.sample_updatePriority task (JStr "bogus"))
               [fun task => SampleEntity.sample_updateStatus task (JStr "completed")]
               (SampleEntity.set_title "Ship it" Fixture.t1)
               (SampleEntity.set_title "Ship it" Fixture.t1)
               "Invalid priority: bogus");
    reflexivity.
Defined.

(** ** Authorization in the controller *)

(** C6. When the current user is not the owner of an existing task (the
    assignee included), [updateTask] answers with the owner-only error;
    the only repository method it has called is [findById], so the index,
    every task in it and the storage are as before. *)
Theorem updateTask_owner_only `{EnhancedTaskOps} (s : Controller) (user : User.t)
    (task : Task.t) (taskId : JSValue) (updates : Obj) :
  currentUser s = Some user ->
  TaskRepository.findById taskId (taskRepository s) = Some task ->
  Task.ownerId task <> User.id user ->
  TaskController.updateTask taskId updates s
  = (Normal (failure "Hanya owner yang bisa mengubah task"),
     after_calls [TaskRepository_findById taskId] s).
Proof.
  intros Hu Hf Hne. unfold TaskController.updateTask. run.
  rewrite Hu. simpl. rewrite Hf. simpl.
  destruct (String.eqb_spec (Task.ownerId task) (User.id user)) as [Heq|_];
    [contradiction|].
  simpl. unfold after_calls. now rewrite Hu.
Qed.

(** Bob is the assignee of [t1], not its owner. *)
Lemma updateTask_owner_only_witness :
  @TaskController.updateTask SampleEntity.ops (JStr "t1")
    {[ "title" := JStr "Mine now" ]} Fixture.as_bob
  = (Normal (failure "Hanya owner yang bisa mengubah task"),
     after_calls [TaskRepository_findById (JStr "t1")] Fixture.as_bob)
  /\ Task.assigneeId Fixture.t1 = Some (User.id Fixture.bob).
Proof.
  split; [|reflexivity].
  apply (@updateTask_owner_only SampleEntity.ops Fixture.as_bob Fixture.bob Fixture.t1);
    [reflexivity | reflexivity | discriminate].
Defined.

(** ** Searching *)

Lemma trimStart_whitespace (s : string) :
  Forall (fun c => is_whitespace c = true) (list_ascii_of_string s) ->
  trimStart s = "".
Proof.
  induction s as [|c s IH]; simpl; intros Hall; [reflexivity|].
  inversion Hall as [|? ? Hc Hs]; subst. rewrite Hc. now apply IH.
Qed.

Lemma trim_whitespace (s : string) :
  Forall (fun c => is_whitespace c = true) (list_ascii_of_string s) ->
  trim s = "".
Proof. intros Hall. unfold trim. now rewrite (trimStart_whitespace s Hall). Qed.

Lemma includes_empty (s : string) : includes s "" = true.
Proof. destruct s; reflexivity. Qed.

Lemma filter_all {A} (p : A -> bool) (l : list A) :
  (forall x, p x = true) -> List.filter p l = l.
Proof.
  intros Hp. induction l as [|x l IH]; simpl; [reflexivity|]. now rewrite Hp, IH.
Qed.

(** With the empty string as query, [search] returns every task. *)
Lemma search_empty_query (r : Repo) :
  TaskRepository.search (JStr "") r = Normal (TaskRepository.findAll r).
Proof.
  unfold TaskRepository.search. simpl. f_equal. apply filter_all.
  intros t. unfold TaskRepository.matches. now rewrite includes_empty.
Qed.

(** C10. With a current user set, [searchTasks] answers a query that is
    absent, empty or made of white space only with the empty-query error,
    and the controller is left as it was: no repository method has been
    called, [search] in particular, which would return every task for the
    empty string. *)
Theorem searchTasks_rejects_blank_query (s : Controller)
    (user : User.t) (query : JSValue) :
  currentUser s = Some user ->
  blank_query query ->
  TaskController.searchTasks query s
  = (Normal (failure "Query pencarian tidak boleh kosong"), s)
  /\ TaskRepository.search (JStr "") (taskRepository s)
     = Normal (TaskRepository.findAll (taskRepository s)).
Proof.
  intros Hu Hq. split; [|apply search_empty_query].
  unfold TaskController.searchTasks. run. rewrite Hu. simpl.
  destruct Hq as [->|[->|(str & -> & Hall)]]; try reflexivity.
  simpl. destruct (String.eqb_spec str "") as [->|_]; simpl; [reflexivity|].
  now rewrite (trim_whitespace str Hall).
Qed.

(** Three spaces as query. *)
Lemma searchTasks_rejects_blank_query_witness :
  TaskController.searchTasks (JStr "   ") Fixture.as_alice
  = (Normal (failure "Query pencarian tidak boleh kosong"), Fixture.as_alice)
  /\ TaskRepository.search (JStr "") (taskRepository Fixture.as_alice)
     = Normal (TaskRepository.findAll (taskRepository Fixture.as_alice)).
Proof.
  apply (searchTasks_rejects_blank_query Fixture.as_alice Fixture.alice);
    [reflexivity|].
  right. right. exists "   ". split; [reflexivity|].
  repeat constructor.
Defined.

(** ** The assignee check of [updateTask] *)

Lemma prop_singleton (key k : string) (v : JSValue) :
  prop {[ key := v ]} k = if String.eqb key k then v else JUndefined.
Proof.
  unfold prop. destruct (String.eqb_spec key k) as [->|Hne].
  - now rewrite lookup_singleton_eq.
  - now rewrite lookup_singleton_ne.
Qed.

Lemma requested_assigneeId `{EnhancedTaskOps} (v : JSValue) :
  defined v = true ->
  requested {[ "assigneeId" := v ]} = [fun task => assignTo task v].
Proof.
  intros Hd. unfold requested, requested_from, mutation_table.
  cbn [flat_map fst snd]. rewrite !prop_singleton. simpl. now rewrite Hd.
Qed.

(** C7. When the owner calls [updateTask] with an [assigneeId] that is
    falsy but not [undefined] (the empty string, [null], [0], [false]), the
    controller does not look the assignee up: it calls [findById] and
    [update] on the task repository and nothing on the user repository.
    [update] then hands the value to [task.assignTo], and the answer is a
    success (or the error [assignTo] itself raised), with the task left as
    [assignTo] left it. *)
Theorem updateTask_falsy_assignee_unchecked `{EnhancedTaskOps} (s : Controller)
    (user : User.t) (task : Task.t) (k : string) (v : JSValue) :
  currentUser s = Some user ->
  TaskMap.get k (tasks (taskRepository s)) = Some task ->
  Task.ownerId task = User.id user ->
  truthy v = false ->
  defined v = true ->
  let updates : Obj := {[ "assigneeId" := v ]} in
  let invoked := [TaskRepository_findById (JStr k); TaskRepository_update (JStr k) updates] in
  TaskController.updateTask (JStr k) updates s
  = match assignTo task v with
    | (task', None) =>
        (Normal (Response.mk true (Some (DTask task')) (Some "Task berhasil diupdate")
                             None None None),
         after_calls invoked (with_repo (persisted (with_task k task' (taskRepository s))) s))
    | (task', Some e) =>
        (Normal (failure e),
         after_calls invoked (with_repo (with_task k task' (taskRepository s)) s))
    end.
Proof.
  intros Hu Hg Ho Ht Hd updates invoked. subst updates invoked.
  unfold TaskController.updateTask. run. rewrite Hu. simpl. rewrite Hg. simpl.
  rewrite Ho, String.eqb_refl. simpl. rewrite prop_singleton. simpl. rewrite Ht.
  cbn [taskRepository userRepository currentUser calls].
  rewrite (update_run k _ _ task Hg), (requested_assigneeId v Hd).
  cbn [run_all]. unfold after_calls, with_repo. simpl.
  destruct (assignTo task v) as [task' [e|]]; simpl; now rewrite <- app_assoc.
Qed.

(** Alice, owner of [t1], passes the empty string: the update succeeds and
    the sample entity stores it as assignee, although no user has that id. *)
Lemma updateTask_falsy_assignee_unchecked_witness :
  @TaskController.updateTask SampleEntity.ops (JStr "t1") {[ "assigneeId" := JStr "" ]}
    Fixture.as_alice
  = (Normal (Response.mk true (Some (DTask (SampleEntity.set_assignee (Some "") Fixture.t1)))
                         (Some "Task berhasil diupdate") None None None),
     after_calls [TaskRepository_findById (JStr "t1");
                  TaskRepository_update (JStr "t1") {[ "assigneeId" := JStr "" ]}]
       (with_repo
          (persisted (with_task "t1" (SampleEntity.set_assignee (Some "") Fixture.t1)
                                Fixture.repo))
          Fixture.as_alice))
  /\ UserRepository.findById (JStr "") (userRepository Fixture.as_alice) = None.
Proof.
  split; [|reflexivity].
  exact (@updateTask_falsy_assignee_unchecked SampleEntity.ops Fixture.as_alice
           Fixture.alice Fixture.t1 "t1" (JStr "") eq_refl eq_refl eq_refl eq_refl eq_refl).
Defined.

(** ** Sorting *)

Section InsertionSort.
Variable A : Type.
Variable cmp : A -> A -> Z.

Lemma insert_Permutation (x : A) (l : list A) :
  Permutation (TaskRepository.insert cmp x l) (x :: l).
Proof.
  induction l as [|y l IH]; simpl; [reflexivity|].
  destruct (Z.ltb (cmp x y) 0); [reflexivity|].
  rewrite IH. apply perm_swap.
Qed.

Lemma fold_insert_Permutation (l sorted : list A) :
  Permutation (fold_left (fun sorted x => TaskRepository.insert cmp x sorted) l sorted)
              (sorted ++ l).
Proof.
  revert sorted. induction l as [|x l IH]; intros sorted; simpl.
  - now rewrite app_nil_r.
  - rewrite IH, insert_Permutation. simpl. apply Permutation_middle.
Qed.

(** The sorted array holds the elements of the input, each as often. *)
Lemma array_sort_Permutation (l : list A) :
  Permutation (TaskRepository.array_sort cmp l) l.
Proof. apply (fold_insert_Permutation l []). Qed.

(** Elements on which the comparator follows a numeric key in descending
    order: negative exactly when the first key is not below the second. *)
Variable key : A -> Z.
Variable P : A -> Prop.
Hypothesis cmp_key :
  forall a b, P a -> P b -> Z.ltb (cmp a b) 0 = Z.leb (key b) (key a).

Let descending (a b : A) : Prop := key b <= key a.

Lemma insert_descending (x : A) (l : list A) :
  P x -> Forall P l ->
  StronglySorted descending l ->
  StronglySorted descending (TaskRepository.insert cmp x l).
Proof.
  intros Hx Hl Hs. induction Hs as [|y l Hs IH Hy]; simpl.
  - repeat constructor.
  - inversion Hl as [|? ? Py Pl]; subst.
    rewrite (cmp_key x y Hx Py). destruct (Z.leb_spec (key y) (key x)) as [Hle|Hlt].
    + constructor; [now constructor|].
      constructor; [exact Hle|].
      eapply Forall_impl; [exact Hy|]. unfold descending. intros z Hz. simpl in Hz. lia.
    + constructor; [now apply IH|].
      rewrite insert_Permutation. constructor; [unfold descending; lia | exact Hy].
Qed.

Lemma fold_insert_descending (l sorted : list A) :
  Forall P l -> Forall P sorted ->
  StronglySorted descending sorted ->
  StronglySorted descending
    (fold_left (fun sorted x => TaskRepository.insert cmp x sorted) l sorted).
Proof.
  revert sorted. induction l as [|x l IH]; intros sorted Hl Hp Hs; simpl; [exact Hs|].
  inversion Hl as [|? ? Px Pl]; subst.
  apply IH; [exact Pl | | now apply insert_descending].
  rewrite insert_Permutation. now constructor.
Qed.

Lemma array_sort_descending (l : list A) :
  Forall P l -> StronglySorted descending (TaskRepository.array_sort cmp l).
Proof. intros Hl. apply fold_insert_descending; [exact Hl | constructor | constructor]. Qed.

End InsertionSort.

Lemma StronglySorted_positions {A} (R : A -> A -> Prop) (l : list A) :
  StronglySorted R l ->
  forall (i j : nat) (a b : A),
    (i < j)%nat -> l !! i = Some a -> l !! j = Some b -> R a b.
Proof.
  induction 1 as [|x l Hs IH Hx]; intros i j a b Hij Hi Hj.
  - discriminate.
  - destruct j as [|j]; [lia|]. destruct i as [|i]; simpl in *.
    + injection Hi as <-. exact (Forall_lookup_1 _ _ _ _ Hx Hj).
    + apply (IH i j); [lia | exact Hi | exact Hj].
Qed.

Lemma known_priority_ordinal (t : Task.t) :
  known_priority t -> 1 <= ordinal t <= 4.
Proof.
  unfold known_priority, ordinal. simpl.
  intros [<-|[<-|[<-|[<-|[]]]]]; simpl; lia.
Qed.

Lemma comparator_priority_desc (a b : Task.t) :
  known_priority a -> known_priority b ->
  Z.ltb (TaskRepository.comparator (JStr "priority") (JStr "desc") a b) 0
  = Z.leb (ordinal b) (ordinal a).
Proof.
  unfold known_priority, ordinal, TaskRepository.comparator, TaskRepository.sort_value.
  simpl.
  intros [<-|[<-|[<-|[<-|[]]]]] [<-|[<-|[<-|[<-|[]]]]]; reflexivity.
Qed.

(** C9. For tasks whose priorities are among low, medium, high and urgent,
    [sort(tasks, 'priority', 'desc')] returns the same tasks ordered so
    that no task comes before one of a higher ordinal (low = 1,
    medium = 2, high = 3, urgent = 4): all urgent tasks precede all high
    ones, which precede all medium ones, which precede all low ones. *)
Theorem sort_priority_desc (tasks : list Task.t) :
  Forall known_priority tasks ->
  let sorted := TaskRepository.sort tasks (JStr "priority") (JStr "desc") in
  Permutation sorted tasks
  /\ forall (i j : nat) (a b : Task.t),
       (i < j)%nat -> sorted !! i = Some a -> sorted !! j = Some b ->
       ordinal b <= ordinal a.
Proof.
  intros Hk sorted. subst sorted. unfold TaskRepository.sort. simpl. split.
  - apply array_sort_Permutation.
  - apply (StronglySorted_positions (fun a b => ordinal b <= ordinal a)).
    apply (array_sort_descending Task.t _ ordinal known_priority); [|exact Hk].
    apply comparator_priority_desc.
Qed.

(** The four sample tasks, one per priority. *)
Lemma sort_priority_desc_witness :
  TaskRepository.sort [Fixture.t3; Fixture.t1; Fixture.t4; Fixture.t2]
                      (JStr "priority") (JStr "desc")
  = [Fixture.t2; Fixture.t1; Fixture.t4; Fixture.t3]
  /\ List.map ordinal [Fixture.t2; Fixture.t1; Fixture.t4; Fixture.t3] = [4; 3; 2; 1]
  /\ forall (i j : nat) (a b : Task.t),
       (i < j)%nat ->
       [Fixture.t2; Fixture.t1; Fixture.t4; Fixture.t3] !! i = Some a ->
       [Fixture.t2; Fixture.t1; Fixture.t4; Fixture.t3] !! j = Some b ->
       ordinal b <= ordinal a.
Proof.
  split; [reflexivity|]. split; [reflexivity|].
  apply (sort_priority_desc [Fixture.t3; Fixture.t1; Fixture.t4; Fixture.t2]).
  repeat constructor; unfold known_priority; simpl; tauto.
Defined.

(** ** Scoping of [getTasks] *)







(** X3. When the owner calls [updateTask] with a truthy [assigneeId] that
    is the id of no user, the answer is the unknown-assignee error;
    [update] is not called, so the task keeps its assignee. *)
Theorem updateTask_unknown_assignee `{EnhancedTaskOps} (s : Controller) (user : User.t)
    (task : Task.t) (taskId : JSValue) (updates : Obj) :
  currentUser s = Some user ->
  TaskRepository.findById taskId (taskRepository s) = Some task ->
  Task.ownerId task = User.id user ->
  truthy (prop updates "assigneeId") = true ->
  UserRepository.findById (prop updates "assigneeId") (userRepository s) = None ->
  TaskController.updateTask taskId updates s
  = (Normal (failure "User yang di-assign tidak ditemukan"),
     after_calls [TaskRepository_findById taskId;
                  UserRepository_findById (prop updates "assigneeId")] s).
Proof.
  intros Hu Hf Ho Ht Hn. unfold TaskController.updateTask. run.
  rewrite Hu. simpl. rewrite Hf. simpl. rewrite Ho, String.eqb_refl. simpl.
  rewrite Ht. simpl. rewrite Hn. simpl.
  unfold after_calls. now rewrite Hu, <- app_assoc.
Qed.

(** No user has id ['u7']. *)
Lemma updateTask_unknown_assignee_witness :
  @TaskController.updateTask SampleEntity.ops (JStr "t1") {[ "assigneeId" := JStr "u7" ]}
    Fixture.as_alice
  = (Normal (failure "User yang di-assign tidak ditemukan"),
     after_calls [TaskRepository_findById (JStr "t1"); UserRepository_findById (JStr "u7")]
       Fixture.as_alice).
Proof.
  exact (@updateTask_unknown_assignee SampleEntity.ops Fixture.as_alice Fixture.alice
           Fixture.t1 (JStr "t1") {[ "assigneeId" := JStr "u7" ]}
           eq_refl eq_refl eq_refl eq_refl eq_refl).
Defined.

(** ** Runs on the sample data *)

Section Runs.
Local Existing Instance SampleEntity.ops.

(** A new task is owned by and assigned to the current user. *)
Example createTask_buy_milk :
  fst (TaskController.createTask {[ "title" := JStr "Buy milk" ]} Fixture.as_alice)
  = Normal (Response.mk true
      (Some (DTask (Task.mk "task_0" "Buy milk" "" "u1" (Some "u1") "other" "medium"
                            "pending" None false None 0 0 [] [] SampleEntity.today)))
      (Some ("Task " +:+ dquote +:+ "Buy milk" +:+ dquote +:+ " berhasil dibuat"))
      None None None).
Proof. reflexivity. Qed.

(** Toggling twice goes through [completed] and back to [pending]. *)
Example toggleTaskStatus_twice :
  let once := snd (TaskController.toggleTaskStatus (JStr "t1") Fixture.as_alice) in
  let twice := snd (TaskController.toggleTaskStatus (JStr "t1") once) in
  option_map Task.status (TaskRepository.findById (JStr "t1") (taskRepository once))
  = Some "completed"
  /\ option_map Task.status (TaskRepository.findById (JStr "t1") (taskRepository twice))
     = Some "pending".
Proof. split; reflexivity. Qed.

(** A domain error of the entity layer comes back as a failure envelope. *)
Example updateTask_invalid_priority :
  fst (TaskController.updateTask (JStr "t1") {[ "priority" := JStr "bogus" ]}
         Fixture.as_alice)
  = Normal (failure "Invalid priority: bogus").
Proof. reflexivity. Qed.

(** So does a TypeError raised inside [filter]. *)
Example getTasks_tags_not_an_array :
  fst (TaskController.getTasks {[ "tags" := JStr "urgent" ]} Fixture.as_alice)
  = Normal (failure "filters.tags.some is not a function").
Proof. reflexivity. Qed.

(** Without a login, toggling an existing task reports the TypeError. *)
Example toggleTaskStatus_logged_out :
  fst (TaskController.toggleTaskStatus (JStr "t1") Fixture.logged_out)
  = Normal (failure "Cannot read properties of null (reading 'id')").
Proof. reflexivity. Qed.

End Runs.

(** * Further properties of the repository *)

(** ** The index as a map *)

Lemma TaskMap_get_set_ne (k k' : string) (v : Task.t) (m : TaskMap.t) :
  k <> k' -> TaskMap.get k' (TaskMap.set k v m) = TaskMap.get k' m.
Proof.
  intros Hne. induction m as [|[k0 v0] m IH]; simpl.
  - destruct (String.eqb_spec k' k); [congruence | reflexivity].
  - destruct (String.eqb_spec k k0) as [->|Hk]; simpl.
    + destruct (String.eqb_spec k' k0); [congruence | reflexivity].
    + destruct (String.eqb_spec k' k0); [reflexivity | exact IH].
Qed.

Lemma TaskMap_get_remove (k : string) (m : TaskMap.t) :
  TaskMap.get k (TaskMap.remove k m) = None.
Proof.
  induction m as [|[k0 v0] m IH]; simpl; [reflexivity|].
  destruct (String.eqb_spec k k0) as [->|Hk]; simpl; [exact IH|].
  destruct (String.eqb_spec k k0); [contradiction | exact IH].
Qed.

Lemma TaskMap_get_remove_ne (k k' : string) (m : TaskMap.t) :
  k <> k' -> TaskMap.get k' (TaskMap.remove k m) = TaskMap.get k' m.
Proof.
  intros Hne. induction m as [|[k0 v0] m IH]; simpl; [reflexivity|].
  destruct (String.eqb_spec k k0) as [->|Hk]; simpl.
  - destruct (String.eqb_spec k' k0); [congruence | exact IH].
  - destruct (String.eqb_spec k' k0); [reflexivity | exact IH].
Qed.

Lemma TaskMap_remove_absent (k : string) (m : TaskMap.t) :
  TaskMap.get k m = None -> TaskMap.remove k m = m.
Proof.
  induction m as [|[k0 v0] m IH]; simpl; [reflexivity|].
  destruct (String.eqb_spec k k0); [discriminate|]. intros Hg. now rewrite IH.
Qed.

(** ** [create] *)

(** X4. [create] hands its arguments to the entity constructor.  When the
    constructor returns a task, the task is stored under its own id (in
    place of a task that had that id, if any), every other entry of the
    index is untouched, and the storage port receives the whole index.
    When the constructor throws, [create] throws the same error and
    neither the index nor the storage has changed. *)
Theorem create_outcome `{EnhancedTaskOps} (taskData : Obj) (r : Repo) :
  let built := construct (clock r) (prop taskData "title")
                 (or_else (prop taskData "description") (JStr ""))
                 (prop taskData "ownerId") taskData in
  let r' := snd (TaskRepository.create taskData r) in
  match built with
  | Normal task =>
      fst (TaskRepository.create taskData r) = Normal task
      /\ TaskRepository.findById (JStr (Task.id task)) r' = Some task
      /\ (forall k, k <> Task.id task -> TaskMap.get k (tasks r') = TaskMap.get k (tasks r))
      /\ saved (storage r') = TaskRepository.findAll r'
      /\ saveCalls (storage r') = S (saveCalls (storage r))
  | Throw e =>
      fst (TaskRepository.create taskData r) = Throw e
      /\ tasks r' = tasks r
      /\ storage r' = storage r
  end.
Proof.
  intros built r'. subst built r'.
  unfold TaskRepository.create, TaskRepository.new_EnhancedTask,
    TaskRepository._saveTasksToStorage.
  cbv beta delta [try_catch bind ret throw modify]. cbn beta iota.
  destruct (construct (clock r) (prop taskData "title")
              (or_else (prop taskData "description") (JStr ""))
              (prop taskData "ownerId") taskData) as [task|e]; simpl.
  - repeat split.
    + apply TaskMap_get_set.
    + intros k Hk. apply TaskMap_get_set_ne. congruence.
  - repeat split.
Qed.

(** ** [delete] *)

Lemma delete_run (id : JSValue) (r : Repo) :
  TaskRepository.delete id r
  = match TaskRepository.findById id r, id with
    | Some _, JStr k => (Normal true, persisted (with_tasks (TaskMap.remove k (tasks r)) r))
    | _, _ => (Normal false, r)
    end.
Proof.
  unfold TaskRepository.delete, TaskRepository.findById. rewrite bind_gets.
  destruct id; try reflexivity.
  unfold TaskMap.has. destruct (TaskMap.get s (tasks r)); reflexivity.
Qed.

(** X5. [delete] of a present id returns [true]: afterwards the id is
    absent, every other id resolves as before, the storage port holds the
    remaining tasks, and deleting the same id again returns [false]
    without touching anything. *)
Theorem delete_removes_task (id : JSValue) (r : Repo) (task : Task.t) :
  TaskRepository.findById id r = Some task ->
  let r' := snd (TaskRepository.delete id r) in
  fst (TaskRepository.delete id r) = Normal true
  /\ TaskRepository.findById id r' = None
  /\ (forall id', id' <> id ->
        TaskRepository.findById id' r' = TaskRepository.findById id' r)
  /\ mirrored r'
  /\ TaskRepository.delete id r' = (Normal false, r').
Proof.
  intros Hf r'. subst r'. rewrite delete_run, Hf.
  destruct id as [| | | |k|]; try discriminate. simpl.
  assert (Hgone : TaskMap.get k (TaskMap.remove k (tasks r)) = None)
    by apply TaskMap_get_remove.
  repeat split.
  - exact Hgone.
  - intros id' Hne. destruct id' as [| | | |k'|]; try reflexivity.
    simpl. apply TaskMap_get_remove_ne. congruence.
  - rewrite delete_run. simpl. now rewrite Hgone.
Qed.

(** The task under ['t1'] of the sample index. *)
Lemma delete_removes_task_witness :
  fst (TaskRepository.delete (JStr "t1") Fixture.repo) = Normal true
  /\ TaskRepository.findById (JStr "t1") (snd (TaskRepository.delete (JStr "t1") Fixture.repo))
     = None
  /\ TaskRepository.findAll (snd (TaskRepository.delete (JStr "t1") Fixture.repo))
     = [Fixture.t2; Fixture.t3; Fixture.t4].
Proof.
  destruct (delete_removes_task (JStr "t1") Fixture.repo Fixture.t1 eq_refl)
    as (Hr & Hg & _).
  split; [exact Hr|]. split; [exact Hg | reflexivity].
Defined.

(** ** Write-through *)

(** X6. Whenever [create], [update] or [delete] completes normally having
    found or made its task, the storage port holds exactly the tasks of
    the index, whatever it held before. *)
Theorem write_through `{EnhancedTaskOps} (r : Repo) :
  (forall taskData task r',
     TaskRepository.create taskData r = (Normal task, r') -> mirrored r')
  /\ (forall id updates task r',
        TaskRepository.update id updates r = (Normal (Some task), r') -> mirrored r')
  /\ (forall id r',
        TaskRepository.delete id r = (Normal true, r') -> mirrored r').
Proof.
  split; [|split].
  - intros taskData task r'.
    unfold TaskRepository.create, TaskRepository.new_EnhancedTask,
      TaskRepository._saveTasksToStorage.
    cbv beta delta [try_catch bind ret throw modify]. cbn beta iota.
    destruct (construct _ _ _ _ _); simpl; [|discriminate].
    intros [= _ <-]. reflexivity.
  - intros id updates task r' Hu.
    destruct (TaskRepository.findById id r) as [found|] eqn:Hf.
    + destruct id as [| | | |k|]; try discriminate. simpl in Hf.
      rewrite (update_run k updates r found Hf) in Hu.
      destruct (run_all (requested updates) found) as [task' [e|]]; [discriminate|].
      injection Hu as _ <-. reflexivity.
    + unfold TaskRepository.update in Hu. rewrite bind_gets, Hf in Hu. discriminate.
  - intros id r' Hd. rewrite delete_run in Hd.
    destruct (TaskRepository.findById id r), id; try discriminate.
    injection Hd as <-. reflexivity.
Qed.

(** ** [update] without a recognized key *)

Lemma requested_none `{EnhancedTaskOps} (updates : Obj) :
  (forall key, In key recognized_keys -> prop updates key = JUndefined) ->
  requested updates = [].
Proof.
  intros Hnone. unfold requested, requested_from, mutation_table.
  cbn [flat_map fst snd]. rewrite !Hnone by (simpl; tauto). reflexivity.
Qed.

(** X7. When [updates] defines none of the twelve recognized keys (the
    empty object, or one with other keys only), [update] of a present id
    calls no mutation and returns the task as it is, and it still writes
    the whole index to the storage port. *)
Theorem update_without_recognized_key `{EnhancedTaskOps} (k : string) (task : Task.t)
    (updates : Obj) (r : Repo) :
  TaskMap.get k (tasks r) = Some task ->
  (forall key, In key recognized_keys -> prop updates key = JUndefined) ->
  TaskRepository.update (JStr k) updates r = (Normal (Some task), persisted r)
  /\ tasks (persisted r) = tasks r
  /\ saveCalls (storage (persisted r)) = S (saveCalls (storage r)).
Proof.
  intros Hg Hnone. split; [|split; reflexivity].
  rewrite (update_run k updates r task Hg), (requested_none updates Hnone).
  cbn [run_all]. now rewrite with_task_same.
Qed.

(** An object with an unrecognized key only. *)
Lemma update_without_recognized_key_witness :
  @TaskRepository.update SampleEntity.ops (JStr "t1") {[ "colour" := JStr "red" ]} Fixture.repo
  = (Normal (Some Fixture.t1), persisted Fixture.repo)
  /\ tasks (persisted Fixture.repo) = tasks Fixture.repo
  /\ saveCalls (storage (persisted Fixture.repo)) = 1%nat.
Proof.
  apply (@update_without_recognized_key SampleEntity.ops "t1" Fixture.t1
           {[ "colour" := JStr "red" ]} Fixture.repo eq_refl).
  intros key Hin. simpl in Hin.
  repeat (destruct Hin as [<-|Hin]; [reflexivity|]). contradiction.
Defined.

(** ** [filter] *)

Lemma stage_wanted (v : JSValue) (p : Task.t -> bool) (l : list Task.t) :
  TaskRepository.stage v p l = List.filter (wanted v p) l.
Proof.
  unfold TaskRepository.stage, wanted. destruct (truthy v); [reflexivity|].
  symmetry. now apply filter_all.
Qed.

Lemma filter_filter {A} (p q : A -> bool) (l : list A) :
  List.filter q (List.filter p l) = List.filter (fun x => p x && q x) l.
Proof.
  induction l as [|x l IH]; simpl; [reflexivity|].
  destruct (p x); simpl; [destruct (q x)|]; now rewrite IH.
Qed.

(** The seven scalar stages of [filter] amount to one pass with the
    conjunction of the options. *)
Lemma stages_selects_fields (filters : Obj) (r : Repo) :
  TaskRepository.stage (prop filters "dueSoon") TaskRepository.due_soon
    (TaskRepository.stage (prop filters "overdue") (fun task => Task.isOverdue task)
      (TaskRepository.stage (prop filters "priority")
         (fun task => strict_eq (JStr (Task.priority task)) (prop filters "priority"))
        (TaskRepository.stage (prop filters "status")
           (fun task => strict_eq (JStr (Task.status task)) (prop filters "status"))
          (TaskRepository.stage (prop filters "category")
             (fun task => strict_eq (JStr (Task.category task)) (prop filters "category"))
            (TaskRepository.stage (prop filters "assigneeId")
               (fun task => strict_eq (assignee_value task) (prop filters "assigneeId"))
              (TaskRepository.stage (prop filters "ownerId")
                 (fun task => strict_eq (JStr (Task.ownerId task)) (prop filters "ownerId"))
                 (TaskRepository.findAll r)))))))
  = List.filter (selects_fields filters) (TaskRepository.findAll r).
Proof.
  rewrite !stage_wanted, !filter_filter. apply List.filter_ext.
  intros t. unfold selects_fields. now rewrite !andb_assoc.
Qed.

Lemma filter_run (filters : Obj) (r : Repo) :
  TaskRepository.filter filters r
  = TaskRepository.tags_stage (prop filters "tags")
      (List.filter (selects_fields filters) (TaskRepository.findAll r)).
Proof. unfold TaskRepository.filter. cbv zeta. now rewrite stages_selects_fields. Qed.

(** X8. [filter] is conjunctive and keeps the order of the index: unless
    [filters.tags] is a non-empty string, it returns the tasks of the
    index that satisfy every truthy option, and a falsy or missing option
    constrains nothing.  With a non-empty string as [tags] it throws a
    TypeError as soon as one task passes the other options, and returns
    the empty list otherwise. *)
Theorem filter_conjunctive (filters : Obj) (r : Repo) :
  TaskRepository.filter filters r
  = match prop filters "tags" with
    | JStr (String c s) =>
        match List.filter (selects_fields filters) (TaskRepository.findAll r) with
        | [] => Normal []
        | _ :: _ => Throw "filters.tags.some is not a function"
        end
    | _ => Normal (List.filter (selects filters) (TaskRepository.findAll r))
    end.
Proof.
  rewrite filter_run. unfold selects, TaskRepository.tags_stage.
  destruct (prop filters "tags") as [| | | |[|c s]|[|tag more]]; simpl;
    try reflexivity;
    try (f_equal; rewrite <- filter_filter; symmetry; now apply filter_all).
  now rewrite filter_filter.
Qed.

Lemma prop_empty (k : string) : prop ∅ k = JUndefined.
Proof. unfold prop. now rewrite lookup_empty. Qed.

(** X9. A filter with one truthy option returns what the finder of that
    name returns: [ownerId] as [findByOwner], [assigneeId] as
    [findByAssignee], [category], [status] and [priority] likewise,
    [overdue] as [findOverdue] and [dueSoon] as [findDueSoon()] with its
    default of three days.  The empty filter returns [findAll()]. *)
Theorem filter_agrees_with_finders (v : JSValue) (r : Repo) :
  truthy v = true ->
  TaskRepository.filter ∅ r = Normal (TaskRepository.findAll r)
  /\ TaskRepository.filter {[ "ownerId" := v ]} r = Normal (TaskRepository.findByOwner v r)
  /\ TaskRepository.filter {[ "assigneeId" := v ]} r
     = Normal (TaskRepository.findByAssignee v r)
  /\ TaskRepository.filter {[ "category" := v ]} r
     = Normal (TaskRepository.findByCategory v r)
  /\ TaskRepository.filter {[ "status" := v ]} r = Normal (TaskRepository.findByStatus v r)
  /\ TaskRepository.filter {[ "priority" := v ]} r
     = Normal (TaskRepository.findByPriority v r)
  /\ TaskRepository.filter {[ "overdue" := v ]} r = Normal (TaskRepository.findOverdue r)
  /\ TaskRepository.filter {[ "dueSoon" := v ]} r
     = Normal (TaskRepository.findDueSoon None r).
Proof.
  intros Hv. unfold TaskRepository.filter. rewrite !prop_empty, !prop_singleton.
  simpl. unfold TaskRepository.stage. simpl. rewrite Hv.
  repeat split; reflexivity.
Qed.

(** Alice's tasks, either way. *)
Lemma filter_agrees_with_finders_witness :
  TaskRepository.filter {[ "ownerId" := JStr "u1" ]} Fixture.repo
  = Normal [Fixture.t1; Fixture.t3; Fixture.t4]
  /\ TaskRepository.findByOwner (JStr "u1") Fixture.repo
     = [Fixture.t1; Fixture.t3; Fixture.t4]
  /\ TaskRepository.filter {[ "dueSoon" := JBool true ]} Fixture.repo
     = Normal (TaskRepository.findDueSoon None Fixture.repo).
Proof.
  destruct (filter_agrees_with_finders (JStr "u1") Fixture.repo eq_refl)
    as (_ & Ho & _).
  destruct (filter_agrees_with_finders (JBool true) Fixture.repo eq_refl)
    as (_ & _ & _ & _ & _ & _ & _ & Hd).
  split; [rewrite Ho; reflexivity|]. split; [reflexivity | exact Hd].
Defined.

(** X10. A falsy option constrains nothing: [{ overdue: false }] does not
    select the tasks that are not overdue, it returns every task, and so
    does any single option whose value is [false], [0], [''], [null] or
    [undefined]. *)
Theorem filter_ignores_falsy_option (key : string) (v : JSValue) (r : Repo) :
  truthy v = false ->
  TaskRepository.filter {[ key := v ]} r = Normal (TaskRepository.findAll r).
Proof.
  intros Hv. unfold TaskRepository.filter, TaskRepository.stage. rewrite !prop_singleton.
  assert (Hf : forall k, truthy (if String.eqb key k then v else JUndefined) = false).
  { intros k. now destruct (String.eqb key k). }
  rewrite !Hf. unfold TaskRepository.tags_stage.
  destruct (String.eqb key "tags"); [|reflexivity].
  destruct v; try reflexivity; [|discriminate].
  now rewrite Hv.
Qed.

(** [{ overdue: false }] on the sample index, which has an overdue task. *)
Lemma filter_ignores_falsy_option_witness :
  TaskRepository.filter {[ "overdue" := JBool false ]} Fixture.repo
  = Normal (TaskRepository.findAll Fixture.repo)
  /\ Task.isOverdue Fixture.t2 = true.
Proof.
  split; [|reflexivity].
  exact (filter_ignores_falsy_option "overdue" (JBool false) Fixture.repo eq_refl).
Defined.

(** ** [search] *)

Lemma prefix_toLowerCase (a b : string) :
  String.prefix a b = true -> String.prefix (toLowerCase a) (toLowerCase b) = true.
Proof.
  revert a. induction b as [|c b IH]; intros [|d a]; simpl; try reflexivity; try discriminate.
  destruct (ascii_dec d c) as [->|Hne]; [|discriminate].
  intros Hp. destruct (ascii_dec (lower_char c) (lower_char c)); [|contradiction].
  now apply IH.
Qed.

Lemma includes_toLowerCase (s sub : string) :
  includes s sub = true -> includes (toLowerCase s) (toLowerCase sub) = true.
Proof.
  induction s as [|c s IH]; cbn [includes toLowerCase]; intros Hi.
  - rewrite orb_false_r in *. now apply (prefix_toLowerCase sub "").
  - apply orb_true_iff in Hi. apply orb_true_iff. destruct Hi as [Hp|Hi].
    + left. now apply (prefix_toLowerCase sub (String c s)).
    + right. now apply IH.
Qed.

(** X11. [search] ignores letter case on both sides and only reads: a task
    of the index whose title, description or one of whose tags contains
    some spelling of the query (one that lower-cases to the same string)
    is among the results, and the results are tasks of the index in index
    order, every one of them matching the lower-cased query. *)
Theorem search_ignores_case (query written : string) (r : Repo) (t : Task.t) :
  toLowerCase written = toLowerCase query ->
  In t (TaskRepository.findAll r) ->
  includes (Task.title t) written = true
  \/ includes (Task.description t) written = true
  \/ (exists tag, In tag (Task.tags t) /\ includes tag written = true) ->
  exists found,
    TaskRepository.search (JStr query) r = Normal found
    /\ In t found
    /\ found = List.filter (TaskRepository.matches (toLowerCase query))
                 (TaskRepository.findAll r).
Proof.
  intros Hcase Hin Hhit. eexists. split; [reflexivity|]. split; [|reflexivity].
  apply List.filter_In. split; [exact Hin|].
  unfold TaskRepository.matches. rewrite <- Hcase.
  destruct Hhit as [Ht|[Hd|(tag & Htag & Hi)]].
  - now rewrite (includes_toLowerCase _ _ Ht).
  - rewrite (includes_toLowerCase _ _ Hd). now rewrite orb_true_r.
  - rewrite !orb_true_iff. right. apply existsb_exists. exists tag.
    split; [exact Htag | now apply includes_toLowerCase].
Qed.

(** The titles of the sample tasks start with a capital; the query is in
    upper case. *)
Lemma search_ignores_case_witness :
  exists found,
    TaskRepository.search (JStr "TASK T3") Fixture.repo = Normal found
    /\ In Fixture.t3 found
    /\ found = List.filter (TaskRepository.matches (toLowerCase "TASK T3"))
                 (TaskRepository.findAll Fixture.repo).
Proof.
  apply (search_ignores_case "TASK T3" "Task t3" Fixture.repo Fixture.t3).
  - reflexivity.
  - simpl. tauto.
  - left. reflexivity.
Defined.

(** ** [sort] *)

Section InsertionSortOrder.
Variable A : Type.
Variable cmp : A -> A -> Z.
Variable before : A -> A -> Prop.
Variable P : A -> Prop.
Hypothesis cmp_before : forall a b, P a -> P b -> (Z.ltb (cmp a b) 0 = true <-> before a b).
Hypothesis before_total : forall a b, P a -> P b -> before a b \/ before b a.
Hypothesis before_trans : forall a b c, before a b -> before b c -> before a c.

Lemma insert_sorted (x : A) (l : list A) :
  P x -> Forall P l ->
  StronglySorted before l ->
  StronglySorted before (TaskRepository.insert cmp x l).
Proof.
  intros Hx Hl Hs. induction Hs as [|y l Hs IH Hy]; simpl.
  - repeat constructor.
  - inversion Hl as [|? ? Py Pl]; subst.
    destruct (Z.ltb (cmp x y) 0) eqn:Hc.
    + apply (cmp_before x y Hx Py) in Hc.
      constructor; [now constructor|].
      constructor; [exact Hc|].
      eapply Forall_impl; [exact Hy|]. intros z Hz. now apply (before_trans x y z).
    + constructor; [now apply IH|].
      rewrite insert_Permutation. constructor; [|exact Hy].
      destruct (before_total x y Hx Py) as [Hxy|Hyx]; [|exact Hyx].
      apply (cmp_before x y Hx Py) in Hxy. congruence.
Qed.

Lemma array_sort_sorted (l : list A) :
  Forall P l -> StronglySorted before (TaskRepository.array_sort cmp l).
Proof.
  intros Hl. unfold TaskRepository.array_sort.
  assert (Hgen : forall sorted,
             Forall P sorted -> StronglySorted before sorted ->
             StronglySorted before
               (fold_left (fun sorted x => TaskRepository.insert cmp x sorted) l sorted)).
  { induction l as [|x l IH]; intros sorted Hp Hs; simpl; [exact Hs|].
    inversion Hl as [|? ? Px Pl]; subst.
    apply IH; [exact Pl | | now apply insert_sorted].
    rewrite insert_Permutation. now constructor. }
  apply Hgen; constructor.
Qed.

End InsertionSortOrder.

Lemma String_leb_trans (a b c : string) :
  String.leb a b = true -> String.leb b c = true -> String.leb a c = true.
Proof.
  unfold String.leb. revert b c.
  induction a as [|x a IH]; intros [|y b] [|z c]; simpl; try easy.
  unfold Ascii.compare.
  destruct (N.compare_spec (N_of_ascii x) (N_of_ascii y)),
           (N.compare_spec (N_of_ascii y) (N_of_ascii z)),
           (N.compare_spec (N_of_ascii x) (N_of_ascii z));
    try lia; try easy.
  apply IH.
Qed.

Lemma String_ltb_leb (a b : string) :
  String.ltb a b = false <-> String.leb b a = true.
Proof.
  unfold String.ltb, String.leb. rewrite (String.compare_antisym b a).
  destruct (String.compare a b); simpl; split; easy.
Qed.

Lemma sort_value_number (sortBy : JSValue) (t : Task.t) :
  strict_eq sortBy (JStr "title") = false ->
  sortable sortBy t ->
  TaskRepository.sort_value sortBy t = JNum (sort_number sortBy t).
Proof.
  intros Ht Hs. unfold TaskRepository.sort_value, sort_number. rewrite Ht.
  destruct (strict_eq sortBy (JStr "priority")) eqn:Hp; [|now destruct (strict_eq sortBy (JStr "dueDate"))].
  specialize (Hs Hp). unfold ordinal.
  unfold known_priority in Hs. simpl in Hs.
  destruct Hs as [<-|[<-|[<-|[<-|[]]]]]; reflexivity.
Qed.

(** When the comparator answers negative, in terms of [in_order]. *)
Lemma comparator_in_order (sortBy order : JSValue) (a b : Task.t) :
  sortable sortBy a -> sortable sortBy b ->
  Z.ltb (TaskRepository.comparator sortBy order a b) 0 = true <-> in_order sortBy order a b.
Proof.
  intros Ha Hb. unfold TaskRepository.comparator, in_order.
  destruct (strict_eq sortBy (JStr "title")) eqn:Ht.
  - unfold TaskRepository.sort_value. rewrite Ht. simpl. unfold str_lt.
    destruct (strict_eq order (JStr "asc")).
    + rewrite <- String_ltb_leb. destruct (String.ltb _ _); simpl; split; easy.
    + rewrite <- String_ltb_leb. destruct (String.ltb _ _); simpl; split; easy.
  - rewrite !sort_value_number by assumption. simpl.
    destruct (strict_eq order (JStr "asc")).
    + destruct (Z.ltb_spec (sort_number sortBy b) (sort_number sortBy a)); simpl;
        split; try easy; lia.
    + destruct (Z.ltb_spec (sort_number sortBy a) (sort_number sortBy b)); simpl;
        split; try easy; lia.
Qed.

Lemma in_order_total (sortBy order : JSValue) (a b : Task.t) :
  in_order sortBy order a b \/ in_order sortBy order b a.
Proof.
  unfold in_order.
  destruct (strict_eq sortBy (JStr "title")), (strict_eq order (JStr "asc"));
    try apply String.leb_total; lia.
Qed.

Lemma in_order_trans (sortBy order : JSValue) (a b c : Task.t) :
  in_order sortBy order a b -> in_order sortBy order b c -> in_order sortBy order a c.
Proof.
  unfold in_order.
  destruct (strict_eq sortBy (JStr "title")), (strict_eq order (JStr "asc"));
    intros Hab Hbc; try lia.
  - exact (String_leb_trans _ _ _ Hab Hbc).
  - exact (String_leb_trans _ _ _ Hbc Hab).
Qed.

(** The field and direction [sort] works with once the defaults of its
    parameters are filled in order the same way. *)
Lemma in_order_defaults (sortBy order : JSValue) (a b : Task.t) :
  in_order (if defined sortBy then sortBy else JStr "createdAt")
           (if defined order then order else JStr "desc") a b
  <-> in_order sortBy order a b.
Proof. destruct sortBy, order; reflexivity. Qed.

Lemma sortable_defaults (sortBy : JSValue) (t : Task.t) :
  sortable sortBy t -> sortable (if defined sortBy then sortBy else JStr "createdAt") t.
Proof. destruct sortBy; try easy. Qed.

(** X12. [sort] returns the tasks it was given, each as often, ordered by
    the chosen field: by lower-cased title, by priority ordinal (for
    priorities of the table), by due date with tasks without one last in
    ascending order, or by creation date for any other field, the omitted
    one included; ascending for ['asc'], descending for any other
    direction. *)
Theorem sort_orders_by_field (tasks : list Task.t) (sortBy order : JSValue) :
  Forall (sortable sortBy) tasks ->
  let sorted := TaskRepository.sort tasks sortBy order in
  Permutation sorted tasks
  /\ forall (i j : nat) (a b : Task.t),
       (i < j)%nat -> sorted !! i = Some a -> sorted !! j = Some b ->
       in_order sortBy order a b.
Proof.
  intros Hs sorted. subst sorted. unfold TaskRepository.sort. split.
  - apply array_sort_Permutation.
  - intros i j a b Hij Hi Hj. apply in_order_defaults. revert i j a b Hij Hi Hj.
    apply StronglySorted_positions.
    apply (array_sort_sorted Task.t _ _
             (sortable (if defined sortBy then sortBy else JStr "createdAt"))).
    + intros a b. apply comparator_in_order.
    + intros a b _ _. apply in_order_total.
    + apply in_order_trans.
    + eapply Forall_impl; [exact Hs|]. intros t. apply sortable_defaults.
Qed.

(** The sample tasks by due date, ascending: the task without a due date
    comes last. *)
Lemma sort_orders_by_field_witness :
  TaskRepository.sort [Fixture.t1; Fixture.t2; Fixture.t3; Fixture.t4]
                      (JStr "dueDate") (JStr "asc")
  = [Fixture.t2; Fixture.t1; Fixture.t4; Fixture.t3]
  /\ Task.dueDate Fixture.t3 = None
  /\ forall (i j : nat) (a b : Task.t),
       (i < j)%nat ->
       [Fixture.t2; Fixture.t1; Fixture.t4; Fixture.t3] !! i = Some a ->
       [Fixture.t2; Fixture.t1; Fixture.t4; Fixture.t3] !! j = Some b ->
       in_order (JStr "dueDate") (JStr "asc") a b.
Proof.
  split; [reflexivity|]. split; [reflexivity|].
  apply (sort_orders_by_field [Fixture.t1; Fixture.t2; Fixture.t3; Fixture.t4]
           (JStr "dueDate") (JStr "asc")).
  repeat constructor; discriminate.
Defined.

(** ** [getStats] *)

Lemma tally_sum (field : Task.t -> string) (keys : list string) (tasks : list Task.t) :
  NoDup keys ->
  sum_counts (TaskRepository.tally field keys tasks)
  = length (List.filter (fun t => existsb (String.eqb (field t)) keys) tasks).
Proof.
  unfold sum_counts, TaskRepository.tally. induction 1 as [|k keys Hk Hnd IH]; simpl.
  - induction tasks; simpl; auto.
  - rewrite IH. unfold TaskRepository.count.
    rewrite <- filter_length_split; [reflexivity|].
    intros t Ht. apply String.eqb_eq in Ht.
    destruct (existsb (String.eqb (field t)) keys) eqn:He; [|reflexivity].
    apply existsb_exists in He. destruct He as (k' & Hin & Heq).
    apply String.eqb_eq in Heq. exfalso. apply Hk. apply list_elem_of_In. congruence.
Qed.

Lemma filter_length_complement {A} (p : A -> bool) (l : list A) :
  length l = (length (List.filter p l) + length (List.filter (fun x => negb (p x)) l))%nat.
Proof.
  induction l as [|x l IH]; simpl; [reflexivity|].
  destruct (p x); simpl; lia.
Qed.

(** X13. In the result of [getStats], [total] is the number of tasks in
    scope, and each breakdown splits it: the counts of [byStatus] add up
    to [total] less the tasks whose status is none of the five listed,
    which are counted nowhere; likewise [byPriority] and [byCategory].
    [completed] is the [completed] entry of [byStatus], and [overdue] is
    at most [total]. *)
Theorem getStats_breakdowns (userId : JSValue) (r : Repo) :
  let stats := TaskRepository.getStats userId r in
  let scope := stats_scope userId r in
  Stats.total stats = length scope
  /\ Stats.total stats
     = (sum_counts (Stats.byStatus stats)
        + length (List.filter
                    (outside Task.status
                       ["pending"; "in-progress"; "blocked"; "completed"; "cancelled"])
                    scope))%nat
  /\ Stats.total stats
     = (sum_counts (Stats.byPriority stats)
        + length (List.filter (outside Task.priority ["low"; "medium"; "high"; "urgent"])
                              scope))%nat
  /\ Stats.total stats
     = (sum_counts (Stats.byCategory stats)
        + length (List.filter
                    (outside Task.category
                       ["work"; "personal"; "study"; "health"; "finance"; "other"])
                    scope))%nat
  /\ In ("completed", Stats.completed stats) (Stats.byStatus stats)
  /\ (Stats.overdue stats <= Stats.total stats)%nat.
Proof.
  intros stats scope. subst stats. unfold TaskRepository.getStats.
  fold (stats_scope userId r). fold scope. cbn [Stats.total Stats.byStatus
    Stats.byPriority Stats.byCategory Stats.completed Stats.overdue].
  split; [reflexivity|].
  assert (Hnd : forall keys : list string,
             NoDup keys -> forall field,
             length scope
             = (sum_counts (TaskRepository.tally field keys scope)
                + length (List.filter (outside field keys) scope))%nat).
  { intros keys Hk field. rewrite (tally_sum field keys scope Hk).
    apply filter_length_complement. }
  split; [|split; [|split; [|split]]].
  - apply Hnd. apply NoDup_ListNoDup. repeat constructor; simpl; intuition discriminate.
  - apply Hnd. apply NoDup_ListNoDup. repeat constructor; simpl; intuition discriminate.
  - apply Hnd. apply NoDup_ListNoDup. repeat constructor; simpl; intuition discriminate.
  - simpl. tauto.
  - unfold TaskRepository.count. apply List.filter_length_le.
Qed.

(** ** The index stays keyed by id *)

Lemma TaskMap_set_keys (k : string) (v : Task.t) (m : TaskMap.t) :
  List.map fst (TaskMap.set k v m)
  = if TaskMap.has k m then List.map fst m else (List.map fst m ++ [k])%list.
Proof.
  unfold TaskMap.has. induction m as [|[k0 v0] m IH]; simpl; [reflexivity|].
  destruct (String.eqb_spec k k0) as [->|Hne]; simpl; [reflexivity|].
  rewrite IH. now destruct (TaskMap.get k m).
Qed.

Lemma TaskMap_set_keyed (k : string) (v : Task.t) (m : TaskMap.t) :
  Task.id v = k -> keyed_by_id m -> keyed_by_id (TaskMap.set k v m).
Proof.
  intros Hid [Hk Hnd]. split.
  - clear Hnd. induction Hk as [|[k0 v0] m Hkv Hk IH]; simpl.
    + repeat constructor. exact Hid.
    + destruct (String.eqb k k0); constructor; assumption.
  - rewrite TaskMap_set_keys. unfold TaskMap.has.
    destruct (TaskMap.get k m) eqn:Hg; [exact Hnd|].
    apply TaskMap_get_None in Hg.
    apply List.NoDup_app; [exact Hnd | repeat constructor; intros [] |].
    intros x Hx [<-|[]]. contradiction.
Qed.

Lemma TaskMap_remove_keyed (k : string) (m : TaskMap.t) :
  keyed_by_id m -> keyed_by_id (TaskMap.remove k m).
Proof.
  intros [Hk Hnd]. induction m as [|[k0 v0] m IH]; simpl; [now split|].
  inversion Hk as [|? ? Hkv Hrest]; subst. simpl in Hnd.
  apply List.NoDup_cons_iff in Hnd. destruct Hnd as [Hfresh Hnd].
  destruct (IH Hrest Hnd) as [IHk IHn].
  destruct (String.eqb k k0); [now split|]. split; [now constructor|].
  simpl. constructor; [|exact IHn]. intros Hin. apply Hfresh.
  clear -Hin. induction m as [|[k1 v1] m IHm]; simpl in *; [contradiction|].
  destruct (String.eqb k k1); simpl in *; [right; now apply IHm|].
  destruct Hin as [->|Hin]; [now left | right; now apply IHm].
Qed.

(** X28. [create] and [delete] keep the index keyed by id: if every task
    is stored under its own id and no id occurs twice, the same holds
    after either call, whatever it returns; a created task whose id is
    already taken replaces the task that had it. *)
Theorem index_stays_keyed `{EnhancedTaskOps} (r : Repo) (taskData : Obj) (id : JSValue) :
  keyed_by_id (tasks r) ->
  keyed_by_id (tasks (snd (TaskRepository.create taskData r)))
  /\ keyed_by_id (tasks (snd (TaskRepository.delete id r))).
Proof.
  intros Hk. split.
  - unfold TaskRepository.create, TaskRepository.new_EnhancedTask,
      TaskRepository._saveTasksToStorage.
    cbv beta delta [try_catch bind ret throw modify]. cbn beta iota.
    destruct (construct _ _ _ _ _) as [task|e]; simpl; [|exact Hk].
    now apply TaskMap_set_keyed.
  - rewrite delete_run.
    destruct (TaskRepository.findById id r), id; simpl; try exact Hk.
    now apply TaskMap_remove_keyed.
Qed.

(** The sample index, after creating a task and after deleting one. *)
Lemma index_stays_keyed_witness :
  keyed_by_id
    (tasks (snd (@TaskRepository.create SampleEntity.ops
                   (<["ownerId" := JStr "u1"]> {[ "title" := JStr "Buy milk" ]})
                   Fixture.repo)))
  /\ keyed_by_id (tasks (snd (TaskRepository.delete (JStr "t2") Fixture.repo))).
Proof.
  apply (@index_stays_keyed SampleEntity.ops Fixture.repo). split.
  - repeat constructor.
  - simpl. repeat constructor; simpl; intuition discriminate.
Defined.

(** ** [findDueSoon] *)

(** X29. Every task [findDueSoon(days)] returns has a due date that is
    neither past nor more than [days] days away ([0 <= daysUntilDue <=
    days]), so overdue tasks and tasks without a due date are never
    listed; a negative [days] yields nothing, and a larger window lists
    at least what a smaller one does. *)
Theorem findDueSoon_window (days : Z) (r : Repo) :
  Forall (fun t => exists d, Task.daysUntilDue t = Some d /\ 0 <= d <= days)
         (TaskRepository.findDueSoon (Some days) r)
  /\ (days < 0 -> TaskRepository.findDueSoon (Some days) r = [])
  /\ (forall more, days <= more ->
        incl (TaskRepository.findDueSoon (Some days) r)
             (TaskRepository.findDueSoon (Some more) r)).
Proof.
  unfold TaskRepository.findDueSoon.
  assert (Hin : forall w t, TaskRepository.due_within w t = true <->
                            exists d, Task.daysUntilDue t = Some d /\ 0 <= d <= w).
  { intros w t. unfold TaskRepository.due_within.
    destruct (Task.daysUntilDue t) as [d|].
    - rewrite andb_true_iff, !Z.leb_le. split.
      + intros [H1 H2]. exists d. split; [reflexivity | lia].
      + intros (d' & [= <-] & H1). lia.
    - split; [discriminate | intros (d & Hd & _); discriminate]. }
  split; [|split].
  - apply List.Forall_forall. intros t Ht. apply List.filter_In in Ht. now apply Hin.
  - intros Hneg. induction (TaskRepository.findAll r) as [|t l IH]; simpl; [reflexivity|].
    destruct (TaskRepository.due_within days t) eqn:Hd; [|exact IH].
    apply Hin in Hd. destruct Hd as (d & _ & Hd). lia.
  - intros more Hle t Ht. apply List.filter_In in Ht. destruct Ht as [Hi Hd].
    apply List.filter_In. split; [exact Hi|].
    apply Hin in Hd. apply Hin. destruct Hd as (d & Hdd & Hr). exists d. split; [exact Hdd | lia].
Qed.

(** * Further properties of the controller *)

Lemma involves_spec (uid : string) (t : Task.t) :
  TaskController.involves uid t = true <-> owner_or_assignee uid t.
Proof.
  unfold TaskController.involves, owner_or_assignee, assignee_value. simpl.
  rewrite orb_true_iff, String.eqb_eq.
  destruct (Task.assigneeId t) as [a|]; simpl.
  - rewrite String.eqb_eq. split; (intros [Ho|Ha]; [now left | right; congruence]).
  - split; (intros [Ho|Ha]; [now left | discriminate]).
Qed.

Lemma findById_In (id : JSValue) (r : Repo) (t : Task.t) :
  TaskRepository.findById id r = Some t -> In t (TaskRepository.findAll r).
Proof.
  destruct id; try discriminate. simpl. unfold TaskRepository.findAll, TaskMap.values.
  induction (tasks r) as [|[k v] m IH]; simpl; [discriminate|].
  destruct (String.eqb s k); [intros [= ->]; now left | intros Hg; right; now apply IH].
Qed.

(** One step of a controller operation: unfold the monad and the record
    projections, and nothing of the repository. *)
Ltac step :=
  cbv beta iota zeta delta [try_catch bind ret throw gets modify lift
                            TaskController.on_tasks TaskController.invoked
                            TaskController.find_user TaskController.currentUser_id
                            TaskController.blank];
  cbn [taskRepository userRepository currentUser calls fst snd negb andb orb strict_eq].

(** Case analysis on a scrutinee that contains no other [match]. *)
Ltac innermost :=
  match goal with
  | |- context [match ?x with _ => _ end] =>
      lazymatch x with
      | context [match _ with _ => _ end] => fail
      | _ => destruct x eqn:?; simpl in *
      end
  end.

(** ** Reading does not write *)

(** X14. The six reading operations ([getTasks], [getTask], [searchTasks],
    [getTaskStats], [getOverdueTasks], [getTasksDueSoon]) leave the task
    index, its storage, the users and the login as they were, for every
    state and every argument, also when they answer with an error. *)
Theorem reading_leaves_state_untouched (s : Controller) (filters : Obj)
    (taskId query : JSValue) (days : option Z) :
  untouched s (snd (TaskController.getTasks filters s))
  /\ untouched s (snd (TaskController.getTask taskId s))
  /\ untouched s (snd (TaskController.searchTasks query s))
  /\ untouched s (snd (TaskController.getTaskStats s))
  /\ untouched s (snd (TaskController.getOverdueTasks s))
  /\ untouched s (snd (TaskController.getTasksDueSoon days s)).
Proof.
  unfold untouched, TaskController.getTasks, TaskController.getTask,
    TaskController.searchTasks, TaskController.getTaskStats,
    TaskController.getOverdueTasks, TaskController.getTasksDueSoon.
  run. destruct (currentUser s) as [user|] eqn:Hu; simpl.
  2: { repeat split; assumption. }
  repeat split; try assumption; repeat innermost; simpl; congruence.
Qed.

(** ** Who gets to see a task *)

Lemma involved_visible (s : Controller) (user : User.t) (l : list Task.t) (t : Task.t) :
  currentUser s = Some user ->
  incl l (TaskRepository.findAll (taskRepository s)) ->
  In t (List.filter (TaskController.involves (User.id user)) l) ->
  visible_to_user s t.
Proof.
  intros Hu Hl Ht. apply List.filter_In in Ht. destruct Ht as [Hin Hi].
  exists user. split; [exact Hu|]. split; [now apply involves_spec | now apply Hl].
Qed.

Lemma getTask_visible (s : Controller) (taskId : JSValue) (t : Task.t) :
  In t (handed_out (TaskController.getTask taskId s)) -> visible_to_user s t.
Proof.
  unfold handed_out, TaskController.getTask. run.
  destruct (currentUser s) as [user|] eqn:Hu; simpl; [|contradiction].
  destruct (TaskRepository.findById taskId (taskRepository s)) as [task|] eqn:Hf; simpl;
    [|contradiction].
  destruct (negb (String.eqb (Task.ownerId task) (User.id user))
            && negb (strict_eq (assignee_value task) (JStr (User.id user)))) eqn:Hs;
    simpl; [contradiction|].
  intros [<-|[]]. exists user. split; [exact Hu|].
  split; [|now apply (findById_In taskId)].
  apply involves_spec. unfold TaskController.involves. simpl.
  apply andb_false_iff in Hs. rewrite !negb_false_iff in Hs.
  apply orb_true_iff. exact Hs.
Qed.

Lemma searchTasks_visible (s : Controller) (query : JSValue) (t : Task.t) :
  In t (handed_out (TaskController.searchTasks query s)) -> visible_to_user s t.
Proof.
  unfold handed_out, TaskController.searchTasks. run.
  destruct (currentUser s) as [user|] eqn:Hu; simpl; [|contradiction].
  destruct (truthy query); simpl; [|contradiction].
  destruct (call_trim "query" query) as [trimmed|e]; simpl; [|contradiction].
  destruct (String.eqb trimmed ""); simpl; [contradiction|].
  unfold TaskRepository.search.
  destruct (call_toLowerCase "query" query) as [term|e]; simpl; [|contradiction].
  apply involved_visible; [exact Hu|]. intros x Hx. now apply List.filter_In in Hx.
Qed.

Lemma getOverdueTasks_visible (s : Controller) (t : Task.t) :
  In t (handed_out (TaskController.getOverdueTasks s)) -> visible_to_user s t.
Proof.
  unfold handed_out, TaskController.getOverdueTasks. run.
  destruct (currentUser s) as [user|] eqn:Hu; simpl; [|contradiction].
  apply involved_visible; [exact Hu|]. intros x Hx. now apply List.filter_In in Hx.
Qed.

Lemma getTasksDueSoon_visible (s : Controller) (days : option Z) (t : Task.t) :
  In t (handed_out (TaskController.getTasksDueSoon days s)) -> visible_to_user s t.
Proof.
  unfold handed_out, TaskController.getTasksDueSoon. run.
  destruct (currentUser s) as [user|] eqn:Hu; simpl; [|contradiction].
  apply involved_visible; [exact Hu|]. intros x Hx. now apply List.filter_In in Hx.
Qed.

(** X15. Whatever the state and the arguments, a task that [getTask],
    [searchTasks], [getOverdueTasks] or [getTasksDueSoon] returns is a task
    of the index that the current user owns or is assigned to; without a
    current user they return no task at all. *)
Theorem reads_return_own_tasks_only (s : Controller) (taskId query : JSValue)
    (days : option Z) :
  Forall (visible_to_user s) (handed_out (TaskController.getTask taskId s))
  /\ Forall (visible_to_user s) (handed_out (TaskController.searchTasks query s))
  /\ Forall (visible_to_user s) (handed_out (TaskController.getOverdueTasks s))
  /\ Forall (visible_to_user s) (handed_out (TaskController.getTasksDueSoon days s)).
Proof.
  repeat split; apply List.Forall_forall; intros t.
  - apply getTask_visible.
  - apply searchTasks_visible.
  - apply getOverdueTasks_visible.
  - apply getTasksDueSoon_visible.
Qed.

(** X16. For a logged-in user, [getOverdueTasks] returns every overdue
    task of the index that the user owns or is assigned to, and
    [getTasksDueSoon(days)] every such task whose [daysUntilDue] lies in
    [[0, days]] (three days when [days] is omitted): tasks merely
    assigned to the user are listed here, unlike in [getTasks]. *)
Theorem due_lists_include_assigned_tasks (s : Controller) (user : User.t)
    (days : option Z) (t : Task.t) :
  currentUser s = Some user ->
  In t (TaskRepository.findAll (taskRepository s)) ->
  owner_or_assignee (User.id user) t ->
  (Task.isOverdue t = true -> In t (handed_out (TaskController.getOverdueTasks s)))
  /\ (TaskRepository.due_within (match days with Some d => d | None => 3 end) t = true ->
      In t (handed_out (TaskController.getTasksDueSoon days s))).
Proof.
  intros Hu Hin Hv. apply involves_spec in Hv.
  unfold handed_out, TaskController.getOverdueTasks, TaskController.getTasksDueSoon.
  run. rewrite Hu. simpl. split; intros Hd.
  - apply List.filter_In. split; [|exact Hv]. apply List.filter_In. now split.
  - apply List.filter_In. split; [|exact Hv]. apply List.filter_In. now split.
Qed.

(** Alice is the assignee, not the owner, of the overdue task [t2]. *)
Lemma due_lists_include_assigned_tasks_witness :
  handed_out (TaskController.getOverdueTasks Fixture.as_alice) = [Fixture.t2]
  /\ Task.ownerId Fixture.t2 = "u2"
  /\ In Fixture.t1 (handed_out (TaskController.getTasksDueSoon None Fixture.as_bob)).
Proof.
  split; [reflexivity|]. split; [reflexivity|].
  apply (due_lists_include_assigned_tasks Fixture.as_bob Fixture.bob None Fixture.t1).
  - reflexivity.
  - simpl. tauto.
  - right. reflexivity.
  - reflexivity.
Defined.

(** ** Deleting through the controller *)

(** X17. For a logged-in user and an existing task, [deleteTask] removes
    the task only for its owner: the owner gets a success, after which
    the id is absent from the index and the storage holds the remaining
    tasks; anyone else, the assignee included, gets the owner-only error
    and nothing is touched. *)
Theorem deleteTask_owner_only (s : Controller) (user : User.t) (task : Task.t)
    (taskId : JSValue) :
  currentUser s = Some user ->
  TaskRepository.findById taskId (taskRepository s) = Some task ->
  let outcome := TaskController.deleteTask taskId s in
  (Task.ownerId task = User.id user ->
     fst outcome
     = Normal (Response.mk true None
                 (Some ("Task " +:+ dquote +:+ Task.title task +:+ dquote
                        +:+ " berhasil dihapus"))
                 None None None)
     /\ TaskRepository.findById taskId (taskRepository (snd outcome)) = None
     /\ mirrored (taskRepository (snd outcome)))
  /\ (Task.ownerId task <> User.id user ->
        fst outcome = Normal (failure "Hanya owner yang bisa menghapus task")
        /\ untouched s (snd outcome)).
Proof.
  intros Hu Hf outcome. subst outcome. unfold TaskController.deleteTask. step.
  rewrite Hu. step. rewrite Hf. step.
  destruct (String.eqb_spec (Task.ownerId task) (User.id user)) as [Heq|Hne]; step.
  - split; [intros _ | contradiction]. rewrite delete_run, Hf.
    destruct taskId as [| | | |k|]; try discriminate. simpl.
    split; [reflexivity|]. split; [apply TaskMap_get_remove | reflexivity].
  - split; [contradiction | intros _]. repeat split.
Qed.

(** Alice deletes her task [t1]; bob, its assignee, may not. *)
Lemma deleteTask_owner_only_witness :
  (fst (TaskController.deleteTask (JStr "t1") Fixture.as_alice)
   = Normal (Response.mk true None
               (Some ("Task " +:+ dquote +:+ "Task t1" +:+ dquote +:+ " berhasil dihapus"))
               None None None)
   /\ TaskRepository.findById (JStr "t1")
        (taskRepository (snd (TaskController.deleteTask (JStr "t1") Fixture.as_alice)))
      = None
   /\ mirrored (taskRepository (snd (TaskController.deleteTask (JStr "t1") Fixture.as_alice))))
  /\ fst (TaskController.deleteTask (JStr "t1") Fixture.as_bob)
     = Normal (failure "Hanya owner yang bisa menghapus task")
  /\ untouched Fixture.as_bob (snd (TaskController.deleteTask (JStr "t1") Fixture.as_bob)).
Proof.
  split.
  - apply (deleteTask_owner_only Fixture.as_alice Fixture.alice Fixture.t1 (JStr "t1"));
      reflexivity.
  - apply (deleteTask_owner_only Fixture.as_bob Fixture.bob Fixture.t1 (JStr "t1"));
      [reflexivity | reflexivity | discriminate].
Defined.

(** X18. [deleteTask] answers with a success or with one of three errors
    (login required, task not found, owner only), whatever the state and
    the id.  Its last branch, ['Gagal menghapus task'], is never taken:
    [delete] is only called on an id [findById] has just found. *)
Theorem deleteTask_answers (s : Controller) (taskId : JSValue) :
  exists resp,
    fst (TaskController.deleteTask taskId s) = Normal resp
    /\ ((Response.success resp = true /\ Response.error resp = None)
        \/ (Response.success resp = false
            /\ In (Response.error resp)
                  [Some "User harus login terlebih dahulu";
                   Some "Task tidak ditemukan";
                   Some "Hanya owner yang bisa menghapus task"])).
Proof.
  unfold TaskController.deleteTask. step.
  destruct (currentUser s) as [user|]; step.
  2: { eexists. split; [reflexivity|]. right. simpl. tauto. }
  destruct (TaskRepository.findById taskId (taskRepository s)) as [task|] eqn:Hf; step.
  2: { eexists. split; [reflexivity|]. right. simpl. tauto. }
  destruct (String.eqb (Task.ownerId task) (User.id user)); step.
  2: { eexists. split; [reflexivity|]. right. simpl. tauto. }
  rewrite delete_run, Hf. destruct taskId; try discriminate. simpl.
  eexists. split; [reflexivity|]. left. split; reflexivity.
Qed.

(** ** Updating through the controller *)

(** X19. When the owner updates an existing task and [assigneeId] is
    falsy or names an existing user, the answer follows the mutations
    requested: if all succeed, a success carrying the task as mutated
    (never [null]), with the index persisted; if one fails, the failure
    envelope with that error, while the mutations that ran before it stay
    in the index and the storage is not written.  A failed [updateTask]
    can thus have changed the task. *)
Theorem updateTask_by_owner `{EnhancedTaskOps} (s : Controller) (user : User.t)
    (task : Task.t) (k : string) (updates : Obj) :
  currentUser s = Some user ->
  TaskMap.get k (tasks (taskRepository s)) = Some task ->
  Task.ownerId task = User.id user ->
  assignee_accepted updates s ->
  let outcome := TaskController.updateTask (JStr k) updates s in
  match run_all (requested updates) task with
  | (task', None) =>
      fst outcome
      = Normal (Response.mk true (Some (DTask task')) (Some "Task berhasil diupdate")
                            None None None)
      /\ taskRepository (snd outcome) = persisted (with_task k task' (taskRepository s))
  | (task', Some e) =>
      fst outcome = Normal (failure e)
      /\ taskRepository (snd outcome) = with_task k task' (taskRepository s)
  end.
Proof.
  intros Hu Hg Ho Ha outcome. subst outcome.
  unfold TaskController.updateTask. step. rewrite Hu. step.
  cbn [TaskRepository.findById]. rewrite Hg. step.
  rewrite Ho, String.eqb_refl. step.
  destruct (truthy (prop updates "assigneeId")) eqn:Ht; step.
  - destruct Ha as [Hfalsy|(u & Hfound)]; [congruence|]. rewrite Hfound.
    cbn [TaskController.is_null]. step.
    rewrite (update_run k updates (taskRepository s) task Hg).
    destruct (run_all (requested updates) task) as [task' [e|]]; step; split; reflexivity.
  - rewrite (update_run k updates (taskRepository s) task Hg).
    destruct (run_all (requested updates) task) as [task' [e|]]; step; split; reflexivity.
Qed.

(** The owner changes the title and asks for a priority the sample entity
    rejects: the answer is a failure, yet the title has changed in the
    index and the storage still holds the old task. *)
Lemma updateTask_by_owner_witness :
  fst (@TaskController.updateTask SampleEntity.ops (JStr "t1")
         (<["title" := JStr "Ship it"]> {[ "priority" := JStr "bogus" ]}) Fixture.as_alice)
  = Normal (failure "Invalid priority: bogus")
  /\ taskRepository
       (snd (@TaskController.updateTask SampleEntity.ops (JStr "t1")
               (<["title" := JStr "Ship it"]> {[ "priority" := JStr "bogus" ]})
               Fixture.as_alice))
     = with_task "t1" (SampleEntity.set_title "Ship it" Fixture.t1) Fixture.repo.
Proof.
  exact (@updateTask_by_owner SampleEntity.ops Fixture.as_alice Fixture.alice Fixture.t1
           "t1" (<["title" := JStr "Ship it"]> {[ "priority" := JStr "bogus" ]})
           eq_refl eq_refl eq_refl (or_introl eq_refl)).
Defined.

(** ** Toggling *)

Lemma requested_status `{EnhancedTaskOps} (v : JSValue) :
  defined v = true ->
  requested {[ "status" := v ]} = [fun task => updateStatus task v].
Proof.
  intros Hd. unfold requested, requested_from, mutation_table.
  cbn [flat_map fst snd]. rewrite !prop_singleton. simpl. now rewrite Hd.
Qed.

Lemma toggleTaskStatus_run `{EnhancedTaskOps} (s : Controller) (user : User.t)
    (task : Task.t) (k : string) :
  currentUser s = Some user ->
  TaskMap.get k (tasks (taskRepository s)) = Some task ->
  owner_or_assignee (User.id user) task ->
  let outcome := TaskController.toggleTaskStatus (JStr k) s in
  match updateStatus task (JStr (toggled (Task.status task))) with
  | (task', None) =>
      fst outcome
      = Normal (Response.mk true (Some (DTask task'))
                  (Some ("Task " +:+ (if String.eqb (toggled (Task.status task)) "completed"
                                      then "selesai" else "belum selesai")))
                  None None None)
      /\ taskRepository (snd outcome) = persisted (with_task k task' (taskRepository s))
      /\ currentUser (snd outcome) = Some user
  | (task', Some e) =>
      fst outcome = Normal (failure e)
      /\ taskRepository (snd outcome) = with_task k task' (taskRepository s)
      /\ currentUser (snd outcome) = Some user
  end.
Proof.
  intros Hu Hg Hv outcome. subst outcome. apply involves_spec in Hv.
  unfold TaskController.involves in Hv. cbn [strict_eq] in Hv.
  unfold TaskController.toggleTaskStatus. step.
  cbn [TaskRepository.findById]. rewrite Hg. step. rewrite Hu. step.
  destruct (String.eqb (Task.ownerId task) (User.id user)) eqn:Ho; step.
  - fold (toggled (Task.status task)).
    rewrite (update_run k _ (taskRepository s) task Hg), (requested_status (JStr (toggled (Task.status task))) eq_refl).
    cbn [run_all].
    destruct (updateStatus task (JStr (toggled (Task.status task)))) as [task' [e|]];
      step; repeat split; first [exact Hu | reflexivity].
  - try rewrite Hu. step. simpl in Hv. rewrite Hv. step.
    fold (toggled (Task.status task)).
    rewrite (update_run k _ (taskRepository s) task Hg), (requested_status (JStr (toggled (Task.status task))) eq_refl).
    cbn [run_all].
    destruct (updateStatus task (JStr (toggled (Task.status task)))) as [task' [e|]];
      step; repeat split; first [exact Hu | reflexivity].
Qed.

(** X20. For an existing task and a logged-in user who owns it or is
    assigned to it, [toggleTaskStatus] asks the entity for [pending] when
    the status is [completed] and for [completed] in every other case
    ([in-progress], [blocked], [cancelled] included); the answer carries
    the task as [updateStatus] left it, or the error [updateStatus]
    raised. *)
Theorem toggleTaskStatus_by_member `{EnhancedTaskOps} (s : Controller) (user : User.t)
    (task : Task.t) (k : string) :
  currentUser s = Some user ->
  TaskMap.get k (tasks (taskRepository s)) = Some task ->
  owner_or_assignee (User.id user) task ->
  let outcome := TaskController.toggleTaskStatus (JStr k) s in
  match updateStatus task (JStr (toggled (Task.status task))) with
  | (task', None) =>
      fst outcome
      = Normal (Response.mk true (Some (DTask task'))
                  (Some ("Task " +:+ (if String.eqb (toggled (Task.status task)) "completed"
                                      then "selesai" else "belum selesai")))
                  None None None)
      /\ taskRepository (snd outcome) = persisted (with_task k task' (taskRepository s))
  | (task', Some e) =>
      fst outcome = Normal (failure e)
      /\ taskRepository (snd outcome) = with_task k task' (taskRepository s)
  end.
Proof.
  intros Hu Hg Hv outcome. subst outcome.
  pose proof (toggleTaskStatus_run s user task k Hu Hg Hv) as Hrun. cbv zeta in Hrun.
  destruct (updateStatus task (JStr (toggled (Task.status task)))) as [task' [e|]];
    destruct Hrun as (Hr & Hs & _); now split.
Qed.

(** Bob, the assignee of [t1], completes it. *)
Lemma toggleTaskStatus_by_member_witness :
  fst (@TaskController.toggleTaskStatus SampleEntity.ops (JStr "t1") Fixture.as_bob)
  = Normal (Response.mk true
              (Some (DTask (SampleEntity.set_status "completed" Fixture.t1)))
              (Some "Task selesai") None None None)
  /\ taskRepository
       (snd (@TaskController.toggleTaskStatus SampleEntity.ops (JStr "t1") Fixture.as_bob))
     = persisted (with_task "t1" (SampleEntity.set_status "completed" Fixture.t1)
                            Fixture.repo).
Proof.
  exact (@toggleTaskStatus_by_member SampleEntity.ops Fixture.as_bob Fixture.bob Fixture.t1
           "t1" eq_refl eq_refl (or_intror eq_refl)).
Defined.

(** X21. Toggling twice does not always restore the status: with an
    entity layer whose [updateStatus] sets the status it is given, a
    task that was [completed] is [completed] again after two toggles, and
    a task in any other status ([in-progress], [blocked], [cancelled],
    [pending]) ends up [pending]. *)
Theorem toggleTaskStatus_twice_collapses `{EnhancedTaskOps} (s : Controller) (user : User.t)
    (task : Task.t) (k : string) :
  sets_status ->
  currentUser s = Some user ->
  TaskMap.get k (tasks (taskRepository s)) = Some task ->
  owner_or_assignee (User.id user) task ->
  let once := snd (TaskController.toggleTaskStatus (JStr k) s) in
  let twice := snd (TaskController.toggleTaskStatus (JStr k) once) in
  exists t1 t2,
    TaskMap.get k (tasks (taskRepository once)) = Some t1
    /\ Task.status t1 = toggled (Task.status task)
    /\ TaskMap.get k (tasks (taskRepository twice)) = Some t2
    /\ Task.status t2
       = (if String.eqb (Task.status task) "completed" then "completed" else "pending").
Proof.
  intros Hset Hu Hg Hv once twice.
  assert (Htarget : forall st, toggled st = "pending" \/ toggled st = "completed").
  { intros st. unfold toggled. destruct (String.eqb st "completed"); tauto. }
  destruct (Hset task _ (Htarget (Task.status task))) as (t1 & Hup1 & Hst1 & Ho1 & Ha1).
  pose proof (toggleTaskStatus_run s user task k Hu Hg Hv) as Hrun1.
  cbv zeta in Hrun1. rewrite Hup1 in Hrun1. destruct Hrun1 as (_ & Hrepo1 & Hu1).
  fold once in Hrepo1, Hu1.
  assert (Hg1 : TaskMap.get k (tasks (taskRepository once)) = Some t1).
  { rewrite Hrepo1. apply get_with_task. }
  assert (Hv1 : owner_or_assignee (User.id user) t1).
  { unfold owner_or_assignee in *. now rewrite Ho1, Ha1. }
  destruct (Hset t1 _ (Htarget (Task.status t1))) as (t2 & Hup2 & Hst2 & _ & _).
  pose proof (toggleTaskStatus_run once user t1 k Hu1 Hg1 Hv1) as Hrun2.
  cbv zeta in Hrun2. rewrite Hup2 in Hrun2. destruct Hrun2 as (_ & Hrepo2 & _).
  fold twice in Hrepo2.
  exists t1, t2. split; [exact Hg1|]. split; [exact Hst1|]. split.
  - rewrite Hrepo2. apply get_with_task.
  - rewrite Hst2, Hst1. unfold toggled.
    destruct (String.eqb (Task.status task) "completed"); reflexivity.
Qed.

Lemma sample_sets_status : @sets_status SampleEntity.ops.
Proof.
  intros t status Hs. exists (SampleEntity.set_status status t).
  destruct Hs as [-> | ->]; repeat split.
Qed.

(** A task that is in progress is pending after two toggles. *)
Lemma toggleTaskStatus_twice_collapses_witness :
  let s := {| taskRepository :=
                Fixture.repo_of [Fixture.task "t5" "u1" "u1" "low" "in-progress" None 50];
              userRepository := [Fixture.alice];
              currentUser := Some Fixture.alice;
              calls := [] |} in
  let once := snd (@TaskController.toggleTaskStatus SampleEntity.ops (JStr "t5") s) in
  let twice := snd (@TaskController.toggleTaskStatus SampleEntity.ops (JStr "t5") once) in
  exists t1 t2,
    TaskMap.get "t5" (tasks (taskRepository once)) = Some t1
    /\ Task.status t1 = "completed"
    /\ TaskMap.get "t5" (tasks (taskRepository twice)) = Some t2
    /\ Task.status t2 = "pending".
Proof.
  exact (@toggleTaskStatus_twice_collapses SampleEntity.ops
           {| taskRepository :=
                Fixture.repo_of [Fixture.task "t5" "u1" "u1" "low" "in-progress" None 50];
              userRepository := [Fixture.alice];
              currentUser := Some Fixture.alice;
              calls := [] |}
           Fixture.alice
           (Fixture.task "t5" "u1" "u1" "low" "in-progress" None 50) "t5"
           sample_sets_status eq_refl eq_refl (or_introl eq_refl)).
Defined.

(** ** Strangers *)

(** X22. A logged-in user who neither owns an existing task nor is
    assigned to it gets the no-access error from [getTask] and from
    [toggleTaskStatus], and neither call touches the index, the storage
    or the login. *)
Theorem strangers_have_no_access `{EnhancedTaskOps} (s : Controller) (user : User.t)
    (task : Task.t) (taskId : JSValue) :
  currentUser s = Some user ->
  TaskRepository.findById taskId (taskRepository s) = Some task ->
  ~ owner_or_assignee (User.id user) task ->
  fst (TaskController.getTask taskId s)
  = Normal (failure "Anda tidak memiliki akses ke task ini")
  /\ untouched s (snd (TaskController.getTask taskId s))
  /\ fst (TaskController.toggleTaskStatus taskId s)
     = Normal (failure "Anda tidak memiliki akses ke task ini")
  /\ untouched s (snd (TaskController.toggleTaskStatus taskId s)).
Proof.
  intros Hu Hf Hn.
  assert (Hi : TaskController.involves (User.id user) task = false).
  { destruct (TaskController.involves (User.id user) task) eqn:Hi; [|reflexivity].
    apply involves_spec in Hi. contradiction. }
  unfold TaskController.involves in Hi. cbn [strict_eq] in Hi.
  apply orb_false_iff in Hi. destruct Hi as [Ho Ha].
  unfold TaskController.getTask, TaskController.toggleTaskStatus. step.
  repeat (first [rewrite Hu | rewrite Hf | rewrite Ho | rewrite Ha]; step).
  repeat split; symmetry; exact Hu.
Qed.

(** A third user and alice's task [t3]. *)
Lemma strangers_have_no_access_witness :
  fst (TaskController.getTask (JStr "t3") Fixture.as_bob)
  = Normal (failure "Anda tidak memiliki akses ke task ini")
  /\ untouched Fixture.as_bob (snd (TaskController.getTask (JStr "t3") Fixture.as_bob))
  /\ fst (@TaskController.toggleTaskStatus SampleEntity.ops (JStr "t3") Fixture.as_bob)
     = Normal (failure "Anda tidak memiliki akses ke task ini")
  /\ untouched Fixture.as_bob
       (snd (@TaskController.toggleTaskStatus SampleEntity.ops (JStr "t3") Fixture.as_bob)).
Proof.
  apply (@strangers_have_no_access SampleEntity.ops Fixture.as_bob Fixture.bob Fixture.t3);
    [reflexivity | reflexivity |].
  intros [Ho|Ha]; discriminate.
Defined.

(** ** Creating through the controller *)

Lemma trim_empty : trim "" = "".
Proof. reflexivity. Qed.

(** X23. For a logged-in user and a title that is not blank, when the
    assignee is left out or names an existing user, [createTask] has the
    entity construct the task with the current user as [ownerId] (an
    [ownerId] in [taskData] is overridden) and with the current user as
    assignee when none is given; the answer is a success carrying the
    constructed task, or the failure envelope for the error the
    constructor raised. *)
Theorem createTask_sets_owner `{EnhancedTaskOps} (s : Controller) (user : User.t)
    (taskData : Obj) (title : string) :
  currentUser s = Some user ->
  prop taskData "title" = JStr title ->
  trim title <> "" ->
  let uid := JStr (User.id user) in
  let assignee := or_else (prop taskData "assigneeId") uid in
  (assignee = uid
   \/ exists u, UserRepository.findById assignee (userRepository s) = Some u) ->
  let taskToCreate := <["assigneeId" := assignee]> (<["ownerId" := uid]> taskData) in
  fst (TaskController.createTask taskData s)
  = match construct (clock (taskRepository s)) (JStr title)
            (or_else (prop taskData "description") (JStr "")) uid taskToCreate with
    | Normal task =>
        Normal (Response.mk true (Some (DTask task))
                  (Some ("Task " +:+ dquote +:+ Task.title task +:+ dquote
                         +:+ " berhasil dibuat"))
                  None None None)
    | Throw e => Normal (failure e)
    end.
Proof.
  intros Hu Ht Hnb uid assignee Ha taskToCreate.
  assert (Htitle : String.eqb title "" = false).
  { destruct (String.eqb_spec title ""); [subst; now rewrite trim_empty in Hnb | reflexivity]. }
  assert (Hp : prop taskToCreate "assigneeId" = assignee).
  { unfold taskToCreate, prop. now rewrite lookup_insert_eq. }
  assert (Hpo : prop taskToCreate "ownerId" = uid).
  { unfold taskToCreate, prop. rewrite lookup_insert_ne by discriminate.
    now rewrite lookup_insert_eq. }
  assert (Hpt : forall key, key <> "assigneeId" -> key <> "ownerId" ->
                            prop taskToCreate key = prop taskData key).
  { intros key H1 H2. unfold taskToCreate, prop.
    now rewrite !lookup_insert_ne by congruence. }
  unfold TaskController.createTask. step. rewrite Hu. step. rewrite Ht.
  cbn [truthy call_trim]. rewrite Htitle. step.
  destruct (String.eqb_spec (trim title) ""); [contradiction|]. step.
  fold uid. fold assignee. fold taskToCreate. rewrite Hp.
  assert (Hcreate : forall cs,
    fst (try_catch
           (bind (TaskController.on_tasks (TaskRepository_create taskToCreate)
                    (TaskRepository.create taskToCreate))
                 (fun task =>
                    ret (Response.mk true (Some (DTask task))
                           (Some ("Task " +:+ dquote +:+ Task.title task +:+ dquote
                                  +:+ " berhasil dibuat")) None None None)))
           (fun e => ret (failure e))
           {| taskRepository := taskRepository s; userRepository := userRepository s;
              currentUser := Some user; calls := cs |})
    = match construct (clock (taskRepository s)) (JStr title)
              (or_else (prop taskData "description") (JStr "")) uid taskToCreate with
      | Normal task =>
          Normal (Response.mk true (Some (DTask task))
                    (Some ("Task " +:+ dquote +:+ Task.title task +:+ dquote
                           +:+ " berhasil dibuat"))
                    None None None)
      | Throw e => Normal (failure e)
      end).
  { intros cs. step. unfold TaskRepository.create, TaskRepository.new_EnhancedTask,
      TaskRepository._saveTasksToStorage. step.
    rewrite Hpo, !Hpt, Ht by discriminate.
    destruct (construct _ _ _ _ _); reflexivity. }
  destruct (strict_eq assignee uid) eqn:Hs; step.
  - rewrite <- (Hcreate (calls s)). rewrite <- Hu at 1. now destruct s.
  - destruct Ha as [Heq|(u & Hfound)].
    + rewrite Heq in Hs. unfold uid in Hs. cbn [strict_eq] in Hs.
      now rewrite String.eqb_refl in Hs.
    + rewrite Hfound. cbn [TaskController.is_null]. step.
      rewrite <- (Hcreate (calls s ++ [UserRepository_findById assignee])%list).
      now rewrite Hu.
Qed.

(** Alice passes bob's id as [ownerId]; the task is hers all the same. *)
Lemma createTask_sets_owner_witness :
  fst (@TaskController.createTask SampleEntity.ops
         (<["ownerId" := JStr "u2"]> {[ "title" := JStr "Buy milk" ]}) Fixture.as_alice)
  = Normal (Response.mk true
      (Some (DTask (Task.mk "task_0" "Buy milk" "" "u1" (Some "u1") "other" "medium"
                            "pending" None false None 0 0 [] [] SampleEntity.today)))
      (Some ("Task " +:+ dquote +:+ "Buy milk" +:+ dquote +:+ " berhasil dibuat"))
      None None None).
Proof.
  refine (eq_trans
            (@createTask_sets_owner SampleEntity.ops Fixture.as_alice Fixture.alice
               (<["ownerId" := JStr "u2"]> {[ "title" := JStr "Buy milk" ]}) "Buy milk"
               eq_refl eq_refl _ (or_introl eq_refl))
            eq_refl).
  discriminate.
Defined.

(** X24. For a logged-in user, [createTask] creates nothing when the title
    is missing or blank, or when a truthy [assigneeId] other than the
    user's own id names no user: it answers with the title error, or the
    unknown-assignee error, and the index, the storage and the clock the
    constructor reads are as before. *)
Theorem createTask_rejections `{EnhancedTaskOps} (s : Controller) (user : User.t)
    (taskData : Obj) :
  currentUser s = Some user ->
  (blank_query (prop taskData "title") ->
     TaskController.createTask taskData s = (Normal (failure "Judul task wajib diisi"), s))
  /\ (forall title,
        prop taskData "title" = JStr title ->
        trim title <> "" ->
        truthy (prop taskData "assigneeId") = true ->
        strict_eq (prop taskData "assigneeId") (JStr (User.id user)) = false ->
        UserRepository.findById (prop taskData "assigneeId") (userRepository s) = None ->
        TaskController.createTask taskData s
        = (Normal (failure "User yang di-assign tidak ditemukan"),
           after_calls [UserRepository_findById (prop taskData "assigneeId")] s)).
Proof.
  intros Hu. split.
  - intros Hb. unfold TaskController.createTask. step. rewrite Hu. step.
    destruct Hb as [-> | [-> | (str & -> & Hall)]]; try reflexivity.
    cbn [truthy call_trim]. destruct (String.eqb str ""); [reflexivity|]. step.
    now rewrite (trim_whitespace str Hall).
  - intros title Ht Hnb Hty Hne Hnone.
    assert (Htitle : String.eqb title "" = false).
    { destruct (String.eqb_spec title ""); [subst; now rewrite trim_empty in Hnb|reflexivity]. }
    unfold TaskController.createTask. step. rewrite Hu. step. rewrite Ht.
    cbn [truthy call_trim]. rewrite Htitle. step.
    destruct (String.eqb_spec (trim title) ""); [contradiction|]. step.
    assert (Hp : prop (<["assigneeId" := or_else (prop taskData "assigneeId")
                                                  (JStr (User.id user))]>
                         (<["ownerId" := JStr (User.id user)]> taskData)) "assigneeId"
                 = prop taskData "assigneeId").
    { unfold prop at 1. rewrite lookup_insert_eq. unfold or_else. now rewrite Hty. }
    rewrite Hp, Hne. step. rewrite Hnone. cbn [TaskController.is_null]. step.
    unfold after_calls. now rewrite Hu.
Qed.

(** No title at all; and a title with an assignee nobody knows. *)
Lemma createTask_rejections_witness :
  @TaskController.createTask SampleEntity.ops ∅ Fixture.as_alice
  = (Normal (failure "Judul task wajib diisi"), Fixture.as_alice)
  /\ @TaskController.createTask SampleEntity.ops
       (<["assigneeId" := JStr "u7"]> {[ "title" := JStr "Buy milk" ]}) Fixture.as_alice
     = (Normal (failure "User yang di-assign tidak ditemukan"),
        after_calls [UserRepository_findById (JStr "u7")] Fixture.as_alice).
Proof.
  split.
  - apply (@createTask_rejections SampleEntity.ops Fixture.as_alice Fixture.alice ∅ eq_refl).
    left. reflexivity.
  - destruct (@createTask_rejections SampleEntity.ops Fixture.as_alice Fixture.alice
                (<["assigneeId" := JStr "u7"]> {[ "title" := JStr "Buy milk" ]}) eq_refl)
      as [_ Hunknown].
    refine (Hunknown "Buy milk" eq_refl _ eq_refl eq_refl eq_refl). discriminate.
Defined.

(** ** Logging in *)

(** X25. [setCurrentUser] stores the result of the lookup before it tests
    it: when the user exists it becomes the current user; when it does
    not, the call throws and the current user is [null] afterwards, so a
    user who was logged in is logged out.  The repositories are not
    touched either way. *)
Theorem setCurrentUser_replaces_login (s : Controller) (userId : JSValue) :
  let s' := snd (TaskController.setCurrentUser userId s) in
  currentUser s' = UserRepository.findById userId (userRepository s)
  /\ taskRepository s' = taskRepository s
  /\ userRepository s' = userRepository s
  /\ match UserRepository.findById userId (userRepository s) with
     | Some u =>
         fst (TaskController.setCurrentUser userId s) = Normal tt
         /\ userId = JStr (User.id u)
     | None =>
         fst (TaskController.setCurrentUser userId s) = Throw "User tidak ditemukan"
         /\ currentUser s' = None
     end.
Proof.
  intros s'. subst s'. unfold TaskController.setCurrentUser. step.
  destruct (UserRepository.findById userId (userRepository s)) as [u|] eqn:Hf; step;
    repeat split.
  unfold UserRepository.findById in Hf. destruct userId; try discriminate.
  apply List.find_some in Hf. destruct Hf as [_ Heq].
  apply String.eqb_eq in Heq. now rewrite Heq.
Qed.

(** ** Reloading the index *)

Lemma TaskMap_set_absent (k : string) (v : Task.t) (m : TaskMap.t) :
  ~ In k (List.map fst m) -> TaskMap.set k v m = (m ++ [(k, v)])%list.
Proof.
  induction m as [|[k0 v0] m IH]; simpl; intros Hn; [reflexivity|].
  destruct (String.eqb_spec k k0) as [->|Hne]; [exfalso; apply Hn; now left|].
  rewrite IH; [reflexivity|]. intros Hin. apply Hn. now right.
Qed.

Section Reloading.
Variable JSON : Type.
Variable toJSON : Task.t -> JSON.
Variable fromJSON : JSON -> Completion Task.t.

Lemma load_each_appends :
  (forall t, fromJSON (toJSON t) = Normal t) ->
  forall (m index : TaskMap.t),
    Forall (fun entry => Task.id (snd entry) = fst entry) m ->
    List.NoDup (List.map fst index ++ List.map fst m) ->
    load_each JSON fromJSON (List.map toJSON (List.map snd m)) index = (index ++ m)%list.
Proof.
  intros Hround. induction m as [|[k t] m IH]; intros index Hk Hnd; simpl.
  - now rewrite app_nil_r.
  - inversion Hk as [|? ? Hid Hrest]; subst. simpl in Hid.
    rewrite Hround, Hid.
    assert (Hfresh : ~ In k (List.map fst index)).
    { intros Hin. apply List.NoDup_remove_2 in Hnd. apply Hnd.
      apply in_or_app. now left. }
    rewrite (TaskMap_set_absent k t index Hfresh).
    rewrite IH; [now rewrite <- app_assoc | exact Hrest |].
    rewrite List.map_app. simpl. rewrite <- app_assoc. exact Hnd.
Qed.

(** X26. A repository constructed on what another one has saved holds
    the same index, task for task and in the same order, provided the
    entity's [fromJSON] undoes [toJSON], the storage mirrors the index (as
    it does after every successful [create], [update] or [delete]) and
    every task is stored under its own id. *)
Theorem reload_restores_index (r : Repo) :
  (forall t, fromJSON (toJSON t) = Normal t) ->
  mirrored r ->
  keyed_by_id (tasks r) ->
  _loadTasksFromStorage JSON fromJSON (Normal (serialized JSON toJSON r)) = tasks r.
Proof.
  intros Hround Hm [Hk Hnd]. unfold _loadTasksFromStorage, serialized.
  rewrite Hm. unfold TaskRepository.findAll, TaskMap.values.
  now rewrite (load_each_appends Hround (tasks r) [] Hk Hnd).
Qed.

(** X27. Loading swallows every error: when [storage.load] throws the
    index is empty, and when a record fails to parse the records before
    it are kept and all records after it are dropped, valid or not. *)
Theorem load_stops_at_bad_record (good rest : list JSON) (bad : JSON) (e : string) :
  fromJSON bad = Throw e ->
  Forall (fun data => exists t, fromJSON data = Normal t) good ->
  _loadTasksFromStorage JSON fromJSON (Normal (good ++ bad :: rest)%list)
  = _loadTasksFromStorage JSON fromJSON (Normal good)
  /\ _loadTasksFromStorage JSON fromJSON (Throw e) = [].
Proof.
  intros Hbad Hgood. split; [|reflexivity]. unfold _loadTasksFromStorage.
  generalize (@nil (string * Task.t)) as index.
  induction Hgood as [|data good (t & Ht) _ IH]; intros index; simpl.
  - now rewrite Hbad.
  - rewrite Ht. apply IH.
Qed.

End Reloading.

(** The sample index, with a task standing for its own serialized form. *)
Lemma reload_restores_index_witness :
  _loadTasksFromStorage Task.t Normal
    (Normal (serialized Task.t (fun t => t) Fixture.repo))
  = tasks Fixture.repo.
Proof.
  apply (reload_restores_index Task.t (fun t => t) Normal Fixture.repo).
  - reflexivity.
  - reflexivity.
  - split.
    + repeat constructor.
    + simpl. repeat constructor; simpl; intuition discriminate.
Defined.

(** Records are optional tasks here, and [None] does not parse: of three
    records with a bad one in the middle only the first is loaded. *)
Lemma load_stops_at_bad_record_witness :
  let parse := fun data : option Task.t =>
                 match data with
                 | Some t => Normal t
                 | None => Throw "bad record"
                 end in
  _loadTasksFromStorage (option Task.t) parse
    (Normal ([Some Fixture.t1] ++ None :: [Some Fixture.t2])%list)
  = _loadTasksFromStorage (option Task.t) parse (Normal [Some Fixture.t1])
  /\ _loadTasksFromStorage (option Task.t) parse (Throw "bad record") = []
  /\ _loadTasksFromStorage (option Task.t) parse (Normal [Some Fixture.t1])
     = [("t1", Fixture.t1)].
Proof.
  intros parse.
  destruct (load_stops_at_bad_record (option Task.t) parse [Some Fixture.t1]
              [Some Fixture.t2] None "bad record" eq_refl) as [Hstop Hthrow].
  - repeat constructor. now exists Fixture.t1.
  - split; [exact Hstop|]. split; [exact Hthrow | reflexivity].
Defined.
